(** * qsf: the PDF watermark remover ([pdf_processor.py])

    A shallow embedding of [PDFProcessor]: the keyword matcher, the region
    heuristic, the page redactor ([_remove_watermarks]), the document
    pipeline ([process], [_merge_pdfs], [_compress_pdf]) and the scan
    reporter ([scan_pdf]), together with the properties of the
    specification that are stated about them.

    Conventions of the model.
    - Python floats are exact rationals ([Q]); the literals [0.7], [0.65],
      [0.12], ... stand for their decimal values.  Float division raises
      [ZeroDivisionError] on a zero divisor, as in Python.
    - Python [str] values that are inspected character by character (page
      text, keywords, span text) are lists of Unicode code points; file
      paths, which are only rewritten with [str.replace] and used as keys
      of the file system, are [string]s.
    - The file system is a finite map from paths to PDF files; only
      well-formed PDF files are stored in it, and no file has the empty
      path.
    - Exceptions are values of [exn]; an effectful method is a function
      from the world to a result and the world it leaves behind.
    - Standard output is a list of messages; the text of a message (the
      base name of a path, the formatting of a number) is not modelled,
      and neither is the formatting of the entries of [image_details]. *)

From Stdlib Require Import QArith Qround Ascii.
From stdpp Require Import gmap strings list fin_maps.

Local Open Scope Z_scope.
Local Open Scope Q_scope.
Local Open Scope string_scope.
Local Open Scope list_scope.

(** ** Floats *)

Module Float.

(** [x < y] and [x > y] on floats, as booleans. *)
Definition ltb (x y : Q) : bool := negb (Qle_bool y x).
Definition gtb (x y : Q) : bool := ltb y x.

(** [x == 0.0], the test behind [ZeroDivisionError]. *)
Definition is_zero (x : Q) : bool := Qeq_bool x 0.

(** [max(a, b)]. *)
Definition max (a b : Q) : Q := if ltb a b then b else a.

(** [round(x, 2)]: the nearest multiple of 1/100, ties to the even one. *)
Definition round2 (x : Q) : Q :=
  let n := x * 100 in
  let f := Qfloor n in
  let r := n - inject_Z f in
  let k := if ltb r (1 # 2) then f
           else if ltb (1 # 2) r then (f + 1)%Z
           else if Z.even f then f else (f + 1)%Z in
  inject_Z k / 100.

End Float.

(** ** Python strings *)

Module PyStr.

(** A [str] as its code points. *)
Definition t := list N.

(** An ASCII literal. *)
Definition lit (s : string) : t := map Ascii.N_of_ascii (String.list_ascii_of_string s).

(** [str.lower] of one code point.  Only the ASCII letters are mapped:
    the keywords of the processor are ASCII letters and uncased CJK
    characters, and no cased character outside ASCII lowers to a run of
    characters found in a keyword. *)
Definition lower_cp (c : N) : N :=
  if ((65 <=? c) && (c <=? 90))%N then (c + 32)%N else c.

Definition lower (s : t) : t := map lower_cp s.

Definition eqb_cp : N -> N -> bool := N.eqb.

(** [s.startswith(p)]. *)
Fixpoint startswith (p s : t) : bool :=
  match p, s with
  | [], _ => true
  | _ :: _, [] => false
  | a :: p', b :: s' => eqb_cp a b && startswith p' s'
  end.

(** [p in s]: [p] occurs as a contiguous run of [s]. *)
Fixpoint contains (p s : t) : bool :=
  startswith p s ||
  match s with
  | [] => false
  | _ :: s' => contains p s'
  end.

(** [str.isspace] of one code point. *)
Definition isspace_cp (c : N) : bool :=
  (((9 <=? c) && (c <=? 13)) || ((28 <=? c) && (c <=? 32))
   || (c =? 133) || (c =? 160) || (c =? 5760)
   || ((8192 <=? c) && (c <=? 8202))
   || (c =? 8232) || (c =? 8233) || (c =? 8239) || (c =? 8287)
   || (c =? 12288))%N.

Fixpoint lstrip (s : t) : t :=
  match s with
  | [] => []
  | c :: s' => if isspace_cp c then lstrip s' else s
  end.

(** [str.strip()]. *)
Definition strip (s : t) : t := rev (lstrip (rev (lstrip s))).

End PyStr.

(** ** Paths: [str.replace] *)

Module Path.

(** [s.startswith(p)]. *)
Fixpoint startswith (p s : string) : bool :=
  match p, s with
  | EmptyString, _ => true
  | String _ _, EmptyString => false
  | String a p', String b s' => Ascii.eqb a b && startswith p' s'
  end.

(** [replace_from skip old new s]: the scan of [s] from left to right;
    [skip] characters of a match that has just been replaced are still
    to be dropped. *)
Fixpoint replace_from (skip : nat) (old new s : string) : string :=
  match s with
  | EmptyString => EmptyString
  | String c s' =>
      match skip with
      | S k => replace_from k old new s'
      | O =>
          if startswith old s
          then new ++ replace_from (String.length old - 1) old new s'
          else String c (replace_from O old new s')
      end
  end.

(** [s.replace(old, new)] for a non-empty [old]: every occurrence, taken
    from the left and without overlap, is replaced. *)
Definition replace (old new s : string) : string := replace_from O old new s.

End Path.

(** ** Exceptions and results *)

Inductive exn : Type :=
  | FileNotFoundError
  | FitzFileNotFoundError
  | IndexError
  | ZeroDivisionError
  | ValueError
  | CalledProcessError.

Definition exn_eqb (a b : exn) : bool :=
  match a, b with
  | FileNotFoundError, FileNotFoundError
  | FitzFileNotFoundError, FitzFileNotFoundError
  | IndexError, IndexError
  | ZeroDivisionError, ZeroDivisionError
  | ValueError, ValueError
  | CalledProcessError, CalledProcessError => true
  | _, _ => false
  end.

Inductive result (A : Type) : Type :=
  | Ok (a : A)
  | Raise (e : exn).

Arguments Ok {A} a.
Arguments Raise {A} e.

Definition bind_result {A B : Type} (r : result A) (k : A -> result B) : result B :=
  match r with
  | Ok a => k a
  | Raise e => Raise e
  end.

Notation "'let?' x := r 'in' k" := (bind_result r (fun x => k))
  (at level 10, x pattern, r at level 100, k at level 200).

(** [x / y] on floats. *)
Definition fdiv (x y : Q) : result Q :=
  if Float.is_zero y then Raise ZeroDivisionError else Ok (x / y).

(** ** Documents *)

(** [fitz.Rect]: the corners, and the derived [width] and [height]. *)
Record Rect : Type := mkRect { x0 : Q; y0 : Q; x1 : Q; y1 : Q }.

Definition width (r : Rect) : Q := Float.max (x1 r - x0 r) 0.
Definition height (r : Rect) : Q := Float.max (y1 r - y0 r) 0.

(** An entry of [page.get_images()]: [img[0]], [img[2]] and [img[3]]. *)
Record Image : Type := mkImage { xref : Z; img_width : Z; img_height : Z }.

(** The text spans of [page.get_text("dict")]. *)
Record Span : Type := mkSpan { span_text : PyStr.t; span_size : Q }.
Record Line : Type := mkLine { spans : list Span }.
Record Block : Type := mkBlock { block_type : Z; lines : list Line }.

(** A page: its rectangle, its text layer, its image layer (the images
    and, for each xref, the rectangles where the image is placed) and the
    opaque white rectangles drawn over it with [draw_rect]. *)
Record Page : Type := mkPage {
  page_rect : Rect;
  page_text : PyStr.t;
  page_images : list Image;
  page_image_rects : gmap Z (list Rect);
  page_blocks : list Block;
  page_drawn : list Rect
}.

Definition get_image_rects (page : Page) (xref : Z) : list Rect :=
  default [] (page_image_rects page !! xref).

(** [page.draw_rect(rect, color=(1, 1, 1), fill=(1, 1, 1))]. *)
Definition draw_rect (rect : Rect) (page : Page) : Page :=
  {| page_rect := page_rect page;
     page_text := page_text page;
     page_images := page_images page;
     page_image_rects := page_image_rects page;
     page_blocks := page_blocks page;
     page_drawn := page_drawn page ++ [rect] |}.

(** A PDF file on disk: its pages and its size in bytes. *)
Record File : Type := mkFile { file_pages : list Page; file_size : N }.

(** ** The keyword matcher *)

Definition zh_keywords : list PyStr.t :=
  [ [0x5168; 0x80fd]%N;   (* '全能' *)
    [0x626b; 0x63cf]%N;   (* '扫描' *)
    [0x521b; 0x5efa]%N;   (* '创建' *)
    [0x738b]%N ].         (* '王' *)

Definition en_keywords : list PyStr.t :=
  [ PyStr.lit "CamScanner"; PyStr.lit "Scanned with";
    PyStr.lit "Created by"; PyStr.lit "scan" ].

(** [any(kw.lower() in text.lower() for kw in self.zh_keywords + self.en_keywords)] *)
Definition has_watermark (text : PyStr.t) : bool :=
  existsb (fun kw => PyStr.contains (PyStr.lower kw) (PyStr.lower text))
          (zh_keywords ++ en_keywords).

(** ** The region heuristic *)

(** The test of [_remove_watermarks] on one placement rectangle of an
    image (the body of [for rect in rects], up to the [if]). *)
Definition region_heuristic (page_width page_height : Q) (rect : Rect) : result bool :=
  let? rel_x := fdiv (x0 rect) page_width in
  let? rel_y := fdiv (y0 rect) page_height in
  let? rel_width := fdiv (width rect) page_width in
  let? rel_height := fdiv (height rect) page_height in
  let area := width rect * height rect in
  let is_bottom_right := Float.gtb rel_y 0.7 && Float.gtb rel_x 0.65 in
  let is_small := Float.ltb area 20000 in
  let is_very_small_height := Float.ltb rel_height 0.12 in
  Ok (is_bottom_right && is_small && is_very_small_height).

(** The test of [scan_pdf] on one placement rectangle. *)
Definition scan_heuristic (page_width page_height : Q) (rect : Rect) : result bool :=
  let? rel_x := fdiv (x0 rect) page_width in
  let? rel_y := fdiv (y0 rect) page_height in
  let area := width rect * height rect in
  let is_bottom_right := Float.gtb rel_y 0.7 && Float.gtb rel_x 0.65 in
  let is_small := Float.ltb area 20000 in
  Ok (is_bottom_right && is_small).

(** ** The page redactor *)

(** [for rect in rects: ...] of [_remove_watermarks]. *)
Fixpoint redact_rects (page_width page_height : Q) (rects : list Rect)
    (page : Page) (watermarks_removed : nat) : result (Page * nat) :=
  match rects with
  | [] => Ok (page, watermarks_removed)
  | rect :: rects' =>
      let? hit := region_heuristic page_width page_height rect in
      if hit
      then redact_rects page_width page_height rects'
             (draw_rect rect page) (S watermarks_removed)
      else redact_rects page_width page_height rects' page watermarks_removed
  end.

(** [for img_index, img in enumerate(images): ...] of [_remove_watermarks]. *)
Fixpoint redact_images (page_width page_height : Q) (images : list Image)
    (page : Page) (watermarks_removed : nat) : result (Page * nat) :=
  match images with
  | [] => Ok (page, watermarks_removed)
  | img :: images' =>
      let rects := get_image_rects page (xref img) in
      let? (page, watermarks_removed) :=
        redact_rects page_width page_height rects page watermarks_removed in
      redact_images page_width page_height images' page watermarks_removed
  end.

(** The rectangle drawn over a page whose text matched a keyword. *)
Definition watermark_rect (page_width page_height : Q) : Rect :=
  mkRect (page_width * 0.45) (page_height * 0.88) (page_width - 5) (page_height - 5).

(** The two rectangles drawn whenever a flag is set. *)
Definition text_watermark_rect (page_width page_height : Q) : Rect :=
  mkRect (page_width * 0.5) (page_height * 0.85) (page_width - 2) (page_height - 2).

Definition qr_rect (page_width page_height : Q) : Rect :=
  mkRect (page_width * 0.75) (page_height * 0.85) (page_width - 2) (page_height - 2).

(** The body of [for page_num, page in enumerate(doc)] of
    [_remove_watermarks]. *)
Definition redact_page (remove_text remove_qr : bool) (page : Page)
    (watermarks_removed : nat) : result (Page * nat) :=
  let page_width := width (page_rect page) in
  let page_height := height (page_rect page) in
  let '(page, watermarks_removed) :=
    if remove_text && has_watermark (page_text page)
    then (draw_rect (watermark_rect page_width page_height) page, S watermarks_removed)
    else (page, watermarks_removed) in
  let? (page, watermarks_removed) :=
    if remove_qr
    then redact_images page_width page_height (page_images page) page watermarks_removed
    else Ok (page, watermarks_removed) in
  let page :=
    if remove_text || remove_qr
    then draw_rect (qr_rect page_width page_height)
           (draw_rect (text_watermark_rect page_width page_height) page)
    else page in
  Ok (page, watermarks_removed).

(** [for page_num, page in enumerate(doc)] of [_remove_watermarks]. *)
Fixpoint redact_pages (remove_text remove_qr : bool) (doc : list Page)
    (watermarks_removed : nat) : result (list Page * nat) :=
  match doc with
  | [] => Ok ([], watermarks_removed)
  | page :: doc' =>
      let? (page, watermarks_removed) :=
        redact_page remove_text remove_qr page watermarks_removed in
      let? (doc', watermarks_removed) :=
        redact_pages remove_text remove_qr doc' watermarks_removed in
      Ok (page :: doc', watermarks_removed)
  end.

(** ** The world: files and standard output *)

(** The lines printed by the processor (the file name of a message is
    kept as the path it is computed from). *)
Inductive Msg : Type :=
  | MsgProcessing (i n : nat) (filepath : string)
  | MsgRemoved (watermarks_removed : nat)
  | MsgMerged (filepath : string)
  | MsgMergeDone (n : nat)
  | MsgCompressed
  | MsgCompressSkipped.

Record World : Type := mkWorld { fs : gmap string File; stdout : list Msg }.

(** What the processor does not decide itself: the size of the file that
    [doc.save(..., garbage=4, deflate=True, clean=True)] writes for given
    pages, the size of the file that [PdfWriter.write] writes, and
    Ghostscript: [None] when there is no [gs] executable, otherwise the
    tool, which turns its input file into an output file or exits with a
    non-zero status. *)
Record Env : Type := mkEnv {
  save_size : list Page -> N;
  write_size : list Page -> N;
  gs : option (File -> option File)
}.

(** ** Effectful code *)

Definition M (A : Type) : Type := World -> result A * World.

Definition ret {A : Type} (a : A) : M A := fun w => (Ok a, w).

Definition raise {A : Type} (e : exn) : M A := fun w => (Raise e, w).

Definition bind {A B : Type} (m : M A) (k : A -> M B) : M B :=
  fun w =>
    match m w with
    | (Ok a, w') => k a w'
    | (Raise e, w') => (Raise e, w')
    end.

(** [try: m except e: handler]. *)
Definition try_except {A : Type} (m : M A) (e : exn) (handler : M A) : M A :=
  fun w =>
    match m w with
    | (Ok a, w') => (Ok a, w')
    | (Raise e', w') => if exn_eqb e e' then handler w' else (Raise e', w')
    end.

Definition lift {A : Type} (r : result A) : M A := fun w => (r, w).

Notation "x <- m ;; k" := (bind m (fun x => k))
  (at level 100, m at next level, right associativity).
Notation "m ;; k" := (bind m (fun _ => k))
  (at level 100, right associativity).

Definition print (msg : Msg) : M unit :=
  fun w => (Ok tt, {| fs := fs w; stdout := stdout w ++ [msg] |}).

Definition write_file (path : string) (f : File) : M unit :=
  fun w => (Ok tt, {| fs := <[path := f]> (fs w); stdout := stdout w |}).

(** [os.path.exists(path)] *)
Definition os_path_exists (path : string) : M bool :=
  fun w => (Ok (bool_decide (is_Some (fs w !! path))), w).

(** [os.remove(path)] *)
Definition os_remove (path : string) : M unit :=
  fun w =>
    match fs w !! path with
    | Some _ => (Ok tt, {| fs := delete path (fs w); stdout := stdout w |})
    | None => (Raise FileNotFoundError, w)
    end.

(** [os.path.getsize(path)] *)
Definition os_path_getsize (path : string) : M N :=
  fun w =>
    match fs w !! path with
    | Some f => (Ok (file_size f), w)
    | None => (Raise FileNotFoundError, w)
    end.

(** [fitz.open(path)]: the pages of the file.  The empty path, which
    names no file, makes PyMuPDF open a new document without pages; for
    any other path without a file it raises its own
    [fitz.FileNotFoundError]. *)
Definition fitz_open (path : string) : M (list Page) :=
  fun w =>
    match fs w !! path with
    | Some f => (Ok (file_pages f), w)
    | None =>
        if bool_decide (path = "") then (Ok [], w)
        else (Raise FitzFileNotFoundError, w)
    end.

(** [PdfReader(path).pages] *)
Definition PdfReader (path : string) : M (list Page) :=
  fun w =>
    match fs w !! path with
    | Some f => (Ok (file_pages f), w)
    | None => (Raise FileNotFoundError, w)
    end.

(** [l[0]] *)
Definition index0 {A : Type} (l : list A) : M A :=
  match l with
  | [] => raise IndexError
  | a :: _ => ret a
  end.

(** [size / (1024 * 1024)] *)
Definition megabytes (size : N) : Q := inject_Z (Z.of_N size) / (1024 * 1024).

Module Stats.
Record t : Type := mk { pages : nat; files : nat; watermarks : nat; size_mb : Q }.
End Stats.

Section Pipeline.

Variable env : Env.

(** [doc.save(output_path, garbage=4, deflate=True, clean=True)] for a
    document opened from [name].  PyMuPDF refuses to save a document
    without pages, and to save a document over the file it was opened
    from unless the save is incremental. *)
Definition fitz_save (name : string) (doc : list Page) (output_path : string) : M unit :=
  if bool_decide (output_path = name) then raise ValueError
  else match doc with
       | [] => raise ValueError
       | _ :: _ => write_file output_path (mkFile doc (save_size env doc))
       end.

(** [PdfWriter.write] into [open(output_path, 'wb')]. *)
Definition pdf_write (pdf_writer : list Page) (output_path : string) : M unit :=
  write_file output_path (mkFile pdf_writer (write_size env pdf_writer)).

(** [subprocess.run(gs_cmd, check=True)]: without the executable the
    call raises [FileNotFoundError]; a run that exits with a non-zero
    status (also for an input file that does not exist) raises
    [CalledProcessError] and is taken to leave the files as they were. *)
Definition subprocess_run_gs (input_path output_path : string) : M unit :=
  fun w =>
    match gs env with
    | None => (Raise FileNotFoundError, w)
    | Some tool =>
        match fs w !! input_path ≫= tool with
        | Some out => write_file output_path out w
        | None => (Raise CalledProcessError, w)
        end
    end.

Definition _remove_watermarks (input_path : string) (remove_text remove_qr : bool)
    : M string :=
  doc <- fitz_open input_path ;;
  r <- lift (redact_pages remove_text remove_qr doc 0) ;;
  let '(doc, watermarks_removed) := r in
  let output_path := Path.replace ".pdf" "_clean.pdf" input_path in
  fitz_save input_path doc output_path ;;
  print (MsgRemoved watermarks_removed) ;;
  ret output_path.

(** [for filepath in file_paths: ...] of [_merge_pdfs]. *)
Fixpoint merge_loop (file_paths : list string) (pdf_writer : list Page)
    : M (list Page) :=
  match file_paths with
  | [] => ret pdf_writer
  | filepath :: file_paths' =>
      present <- os_path_exists filepath ;;
      if (present : bool)
      then reader <- PdfReader filepath ;;
           print (MsgMerged filepath) ;;
           merge_loop file_paths' (pdf_writer ++ reader)
      else merge_loop file_paths' pdf_writer
  end.

Definition _merge_pdfs (file_paths : list string) : M string :=
  pdf_writer <- merge_loop file_paths [] ;;
  first <- index0 file_paths ;;
  let output_path := Path.replace ".pdf" "_merged.pdf" first in
  pdf_write pdf_writer output_path ;;
  print (MsgMergeDone (length file_paths)) ;;
  ret output_path.

Definition _compress_pdf (input_path : string) : M string :=
  let output_path := Path.replace ".pdf" "_compressed.pdf" input_path in
  try_except
    (subprocess_run_gs input_path output_path ;;
     print MsgCompressed ;;
     ret output_path)
    CalledProcessError
    (print MsgCompressSkipped ;;
     ret input_path).

(** [for i, filepath in enumerate(file_paths): ...] of [process], from
    index [i] on; [inl] is the [return] inside the loop, [inr] the end
    of the loop with [total_pages] and [processed_pdfs]. *)
Fixpoint process_loop (len_file_paths : nat) (remove_text remove_qr merge : bool)
    (total_watermarks : nat) (i : nat) (file_paths : list string)
    (total_pages : nat) (processed_pdfs : list string)
    : M (string * Stats.t + nat * list string) :=
  match file_paths with
  | [] => ret (inr (total_pages, processed_pdfs))
  | filepath :: file_paths' =>
      print (MsgProcessing (i + 1) len_file_paths filepath) ;;
      clean_path <- _remove_watermarks filepath remove_text remove_qr ;;
      doc <- fitz_open clean_path ;;
      let total_pages := (total_pages + length doc)%nat in
      if negb merge && (i =? 0)%nat
      then size <- os_path_getsize clean_path ;;
           ret (inl (clean_path,
                     {| Stats.pages := total_pages;
                        Stats.files := len_file_paths;
                        Stats.watermarks := total_watermarks;
                        Stats.size_mb := megabytes size |}))
      else process_loop len_file_paths remove_text remove_qr merge
             total_watermarks (S i) file_paths' total_pages
             (processed_pdfs ++ [clean_path])
  end.

(** [for fp in processed_pdfs: if os.path.exists(fp) and fp != merged_path:
    os.remove(fp)] *)
Fixpoint remove_temporaries (processed_pdfs : list string) (merged_path : string)
    : M unit :=
  match processed_pdfs with
  | [] => ret tt
  | fp :: processed_pdfs' =>
      present <- os_path_exists fp ;;
      (if (present : bool) && negb (bool_decide (fp = merged_path))
       then os_remove fp else ret tt) ;;
      remove_temporaries processed_pdfs' merged_path
  end.

Definition process (file_paths : list string)
    (remove_text remove_qr merge compress : bool) : M (string * Stats.t) :=
  let total_pages := 0%nat in
  let total_watermarks := 0%nat in
  r <- process_loop (length file_paths) remove_text remove_qr merge
         total_watermarks 0 file_paths total_pages [] ;;
  match r with
  | inl returned => ret returned
  | inr (total_pages, processed_pdfs) =>
      final_path <-
        (if merge && (1 <? length processed_pdfs)%nat
         then merged_path <- _merge_pdfs processed_pdfs ;;
              remove_temporaries processed_pdfs merged_path ;;
              if compress
              then final_path <- _compress_pdf merged_path ;;
                   os_remove merged_path ;;
                   ret final_path
              else ret merged_path
         else index0 processed_pdfs) ;;
      size <- os_path_getsize final_path ;;
      let size_mb := megabytes size in
      ret (final_path,
           {| Stats.pages := total_pages;
              Stats.files := length file_paths;
              Stats.watermarks := total_watermarks;
              Stats.size_mb := Float.round2 size_mb |})
  end.

End Pipeline.

(** ** The scan reporter *)

Module ScanReport.

(** An entry of [text_details]. *)
Record TextDetail : Type := mkText { text : PyStr.t; size : Q }.

(** An entry of [image_details]: the page number and the numbers that
    the entry shows as text, the relative origin [(rel_x, rel_y)] and
    the size [rect.width] x [rect.height]. *)
Record ImageDetail : Type := mkImage { page : nat; position : Q * Q; extent : Q * Q }.

Record t : Type := mk {
  pages : nat;
  images : nat;
  has_text_watermark : bool;
  has_qr_watermark : bool;
  text_details : list TextDetail;
  image_details : list ImageDetail
}.

Definition set_has_text_watermark (r : t) : t :=
  mk (pages r) (images r) true (has_qr_watermark r) (text_details r) (image_details r).

Definition add_images (n : nat) (r : t) : t :=
  mk (pages r) (images r + n) (has_text_watermark r) (has_qr_watermark r)
     (text_details r) (image_details r).

(** [result['has_qr_watermark'] = True; result['image_details'].append(d)] *)
Definition flag_image (d : ImageDetail) (r : t) : t :=
  mk (pages r) (images r) (has_text_watermark r) true
     (text_details r) (image_details r ++ [d]).

Definition add_text_details (ds : list TextDetail) (r : t) : t :=
  mk (pages r) (images r) (has_text_watermark r) (has_qr_watermark r)
     (text_details r ++ ds) (image_details r).

End ScanReport.

(** [for rect in rects: ...] of [scan_pdf]. *)
Fixpoint scan_rects (page_width page_height : Q) (page_num : nat)
    (rects : list Rect) (report : ScanReport.t) : result ScanReport.t :=
  match rects with
  | [] => Ok report
  | rect :: rects' =>
      let? hit := scan_heuristic page_width page_height rect in
      let report :=
        if hit
        then ScanReport.flag_image
               (ScanReport.mkImage (page_num + 1)
                  (x0 rect / page_width, y0 rect / page_height)
                  (width rect, height rect))
               report
        else report in
      scan_rects page_width page_height page_num rects' report
  end.

(** [for img in images: ...] of [scan_pdf]. *)
Fixpoint scan_images (page_width page_height : Q) (page_num : nat) (page : Page)
    (images : list Image) (report : ScanReport.t) : result ScanReport.t :=
  match images with
  | [] => Ok report
  | img :: images' =>
      let rects := get_image_rects page (xref img) in
      let? report := scan_rects page_width page_height page_num rects report in
      scan_images page_width page_height page_num page images' report
  end.

(** The body of [for page_num, page in enumerate(doc)] of [scan_pdf]. *)
Definition scan_page (page_num : nat) (page : Page) (report : ScanReport.t)
    : result ScanReport.t :=
  let page_width := width (page_rect page) in
  let page_height := height (page_rect page) in
  let report :=
    if has_watermark (page_text page)
    then ScanReport.set_has_text_watermark report else report in
  let images := page_images page in
  let report := ScanReport.add_images (length images) report in
  scan_images page_width page_height page_num page images report.

(** [for page_num, page in enumerate(doc)] of [scan_pdf], from page
    [page_num] on. *)
Fixpoint scan_pages (page_num : nat) (doc : list Page) (report : ScanReport.t)
    : result ScanReport.t :=
  match doc with
  | [] => Ok report
  | page :: doc' =>
      let? report := scan_page page_num page report in
      scan_pages (S page_num) doc' report
  end.

(** The short text spans of a page: [if doc[0]: ...] of [scan_pdf]. *)
Definition short_spans (blocks : list Block) : list ScanReport.TextDetail :=
  flat_map (fun block =>
    if (block_type block =? 0)%Z
    then flat_map (fun line =>
           flat_map (fun span =>
             let text := PyStr.strip (span_text span) in
             if (length text <? 30)%nat && (1 <? length text)%nat
             then [ScanReport.mkText text (span_size span)]
             else [])
           (spans line))
         (lines block)
    else [])
  blocks.

Definition scan_pdf (input_path : string) : M ScanReport.t :=
  doc <- fitz_open input_path ;;
  let report := ScanReport.mk (length doc) 0 false false [] [] in
  report <- lift (scan_pages 0 doc report) ;;
  first_page <- index0 doc ;;
  let report := ScanReport.add_text_details (short_spans (page_blocks first_page)) report in
  ret report.

(** ** Derived notions used in the statements *)

(** The path [_remove_watermarks] saves to. *)
Definition clean_path (input_path : string) : string :=
  Path.replace ".pdf" "_clean.pdf" input_path.

(** A page whose rectangle has a non-zero width and a non-zero height,
    as MuPDF reports for every page of a PDF file. *)
Definition page_ok (page : Page) : bool :=
  negb (Float.is_zero (width (page_rect page)))
  && negb (Float.is_zero (height (page_rect page))).

(** [page] with the rectangles [rects] drawn over it, in order. *)
Definition overlay (rects : list Rect) (page : Page) : Page :=
  {| page_rect := page_rect page;
     page_text := page_text page;
     page_images := page_images page;
     page_image_rects := page_image_rects page;
     page_blocks := page_blocks page;
     page_drawn := page_drawn page ++ rects |}.

(** The region heuristic as a plain boolean. *)
Definition is_watermark_rect (page_width page_height : Q) (rect : Rect) : bool :=
  match region_heuristic page_width page_height rect with
  | Ok b => b
  | Raise _ => false
  end.

(** The rectangles among [rects] that the region heuristic classifies as
    watermarks. *)
Definition classified (page_width page_height : Q) (rects : list Rect) : list Rect :=
  filter (fun rect => is_watermark_rect page_width page_height rect = true) rects.

(** Every placement rectangle of every image of a page, in the order in
    which the redactor visits them. *)
Definition image_placements (page : Page) : list Rect :=
  flat_map (fun img => get_image_rects page (xref img)) (page_images page).

(** The rectangles that the detection steps redact on a page: the fixed
    rectangle when the text matched a keyword, and the image placements
    that the region heuristic classifies as watermarks. *)
Definition detected (remove_text remove_qr : bool) (page : Page) : list Rect :=
  let page_width := width (page_rect page) in
  let page_height := height (page_rect page) in
  (if remove_text && has_watermark (page_text page)
   then [watermark_rect page_width page_height] else [])
  ++ (if remove_qr
      then classified page_width page_height (image_placements page)
      else []).

(** The two rectangles drawn whatever was detected. *)
Definition safety_net (remove_text remove_qr : bool) (page : Page) : list Rect :=
  let page_width := width (page_rect page) in
  let page_height := height (page_rect page) in
  if remove_text || remove_qr
  then [text_watermark_rect page_width page_height; qr_rect page_width page_height]
  else [].

Definition redacted_page (remove_text remove_qr : bool) (page : Page) : Page :=
  overlay (detected remove_text remove_qr page ++ safety_net remove_text remove_qr page) page.

Definition redacted (remove_text remove_qr : bool) (doc : list Page) : list Page :=
  map (redacted_page remove_text remove_qr) doc.

(** The number of watermark redactions on a document: one per page whose
    text matched a keyword, one per image placement classified by the
    region heuristic. *)
Definition count_redactions (remove_text remove_qr : bool) (doc : list Page) : nat :=
  foldr (fun page n => (length (detected remove_text remove_qr page) + n)%nat) 0%nat doc.

(** The file that [_remove_watermarks] saves for a document. *)
Definition clean_file (env : Env) (remove_text remove_qr : bool) (f : File) : File :=
  let doc := redacted remove_text remove_qr (file_pages f) in
  mkFile doc (save_size env doc).

(** A file that the redactor accepts: it has a page, and its pages have
    proper rectangles. *)
Definition file_ok (f : File) : bool :=
  negb (Nat.eqb (length (file_pages f)) 0) && forallb page_ok (file_pages f).

(** The path [_merge_pdfs] writes to, for the first of its inputs. *)
Definition merged_path_of (first : string) : string :=
  Path.replace ".pdf" "_merged.pdf" first.

(** The path [_compress_pdf] writes to. *)
Definition compressed_path_of (input_path : string) : string :=
  Path.replace ".pdf" "_compressed.pdf" input_path.

(** ['.pdf' in s] *)
Fixpoint mentions_pdf (s : string) : bool :=
  match s with
  | EmptyString => false
  | String _ s' => Path.startswith ".pdf" s || mentions_pdf s'
  end.

(** The files that the loop of [process] saves for the input files, in
    the order of the loop. *)
Fixpoint save_all (env : Env) (remove_text remove_qr : bool)
    (inputs : list (string * File)) (files : gmap string File) : gmap string File :=
  match inputs with
  | [] => files
  | (path, f) :: inputs' =>
      save_all env remove_text remove_qr inputs'
        (<[clean_path path := clean_file env remove_text remove_qr f]> files)
  end.

(** The lines that the loop of [process] prints, from index [i] on. *)
Fixpoint loop_output (i len : nat) (remove_text remove_qr : bool)
    (inputs : list (string * File)) : list Msg :=
  match inputs with
  | [] => []
  | (path, f) :: inputs' =>
      MsgProcessing (i + 1) len path
      :: MsgRemoved (count_redactions remove_text remove_qr (file_pages f))
      :: loop_output (S i) len remove_text remove_qr inputs'
  end.

(** The number of pages of a list of files. *)
Definition page_total (files : list File) : nat :=
  list_sum (map (fun f => length (file_pages f)) files).

(** The files left by [remove_temporaries]. *)
Fixpoint without_temporaries (processed_pdfs : list string) (merged_path : string)
    (files : gmap string File) : gmap string File :=
  match processed_pdfs with
  | [] => files
  | fp :: processed_pdfs' =>
      without_temporaries processed_pdfs' merged_path
        (if bool_decide (is_Some (files !! fp)) && negb (bool_decide (fp = merged_path))
         then delete fp files else files)
  end.

(** Ghostscript cannot compress: the executable is missing, or it exits
    with a non-zero status whatever its input. *)
Definition gs_unavailable (env : Env) : Prop :=
  match gs env with
  | None => True
  | Some tool => forall f : File, tool f = None
  end.

(** The counts that the redactor printed, in the order of the output. *)
Definition printed_counts (out : list Msg) : list nat :=
  flat_map (fun msg => match msg with MsgRemoved n => [n] | _ => [] end) out.

(** The value that a run returned, if it returned. *)
Definition fst_ok {A : Type} (run : result A * World) : option A :=
  match fst run with
  | Ok a => Some a
  | Raise _ => None
  end.

(** The exception that a run raised, if it raised. *)
Definition raised {A : Type} (run : result A * World) : option exn :=
  match fst run with
  | Ok _ => None
  | Raise e => Some e
  end.

(** ** Sample documents *)

Module Sample.

(** A page of 600 x 800 units without text and without images. *)
Definition blank_page : Page :=
  mkPage (mkRect 0 0 600 800) [] [] ∅ [] [].

(** '已使用CamScanner扫描' *)
Definition camscanner_text : PyStr.t :=
  app [0x5df2; 0x4f7f; 0x7528]%N (app (PyStr.lit "CamScanner") [0x626b; 0x63cf]%N).

Definition text_page : Page :=
  mkPage (mkRect 0 0 600 800) camscanner_text [] ∅ [] [].

(** An image of 100 x 100 units placed at 85% of the width and 90% of
    the height of a page of 600 x 800 units. *)
Definition stamp : Rect := mkRect 510 720 610 820.

Definition stamp_page : Page :=
  mkPage (mkRect 0 0 600 800) [] [mkImage 7 100 100] {[ 7%Z := [stamp] ]} [] [].

(** An image of 60 x 60 units in the bottom right corner. *)
Definition small_stamp : Rect := mkRect 520 730 580 790.

(** A page without images that carries a label as its text. *)
Definition labelled_page (label : string) : Page :=
  mkPage (mkRect 0 0 600 800) (PyStr.lit label) [] ∅ [] [].

Definition doc_A : list Page := [labelled_page "A1"; labelled_page "A2"].
Definition doc_B : list Page :=
  [labelled_page "B1"; labelled_page "B2"; labelled_page "B3"].

(** Ghostscript halves the size of a file. *)
Definition gs_ok (f : File) : option File :=
  Some (mkFile (file_pages f) (file_size f / 2)).

(** Ghostscript exits with a non-zero status. *)
Definition gs_fails (f : File) : option File := None.

Definition env_with (tool : option (File -> option File)) : Env :=
  mkEnv (fun _ => 1234567%N) (fun _ => 2000000%N) tool.

Definition files : gmap string File :=
  <["a.pdf" := mkFile [text_page] 100000%N]>
    (<["b.pdf" := mkFile [stamp_page] 200000%N]>
       (<["c.pdf" := mkFile [blank_page; blank_page; blank_page] 300000%N]>
          (<["empty.pdf" := mkFile [] 1000%N]>
             (<["A.pdf" := mkFile doc_A 20000%N]>
                (<["B.pdf" := mkFile doc_B 30000%N]> ∅))))).

Definition world : World := mkWorld files [].

End Sample.

(** ** Further notions used in the statements *)

(** The keywords without ['CamScanner'] and ['Scanned with']. *)
Definition deciding_keywords : list PyStr.t :=
  zh_keywords ++ [PyStr.lit "Created by"; PyStr.lit "scan"].

(** The text layer, the image layer and the rectangle of a page: what
    [draw_rect] leaves alone. *)
Definition same_content (page page' : Page) : Prop :=
  page_rect page' = page_rect page
  /\ page_text page' = page_text page
  /\ page_images page' = page_images page
  /\ page_image_rects page' = page_image_rects page
  /\ page_blocks page' = page_blocks page.

(** Everything that one pass of the redactor draws on a page. *)
Definition drawn_by_pass (remove_text remove_qr : bool) (page : Page) : list Rect :=
  detected remove_text remove_qr page ++ safety_net remove_text remove_qr page.

(** Further sample files: a file whose name has an upper-case extension,
    a page whose rectangle has no width, a page with text blocks, and two
    uploads of which one is named like the intermediate file of the
    other. *)
Module More.

Definition flat_page : Page :=
  mkPage (mkRect 0 0 0 800) (PyStr.lit "scan") [] ∅ [] [].

(** A page with a text block of three spans (a padded title, a single
    character and a long sentence) and an image block. *)
Definition titled_page : Page :=
  mkPage (mkRect 0 0 600 800) (PyStr.lit "  Invoice 42  ") [] ∅
    [mkBlock 0
       [mkLine [mkSpan (PyStr.lit "  Invoice 42  ") 18; mkSpan (PyStr.lit "x") 9];
        mkLine [mkSpan (PyStr.lit "This sentence has more than thirty characters.") 11]];
     mkBlock 1 []]
    [].

Definition files : gmap string File :=
  <["scan.PDF" := mkFile [Sample.text_page] 5000%N]>
    (<["flat.pdf" := mkFile [flat_page] 700%N]>
       (<["titled.pdf" := mkFile [titled_page; Sample.blank_page] 9000%N]> Sample.files)).

Definition world : World := mkWorld files [].

(** Two uploads of one request, as [process_pdf] of [app.py] stores them
    (['uploads/<task>_<filename>']): [a.pdf] with the pages A1, A2 and
    [a_clean.pdf] with the pages B1, B2, B3. *)
Definition uploads : gmap string File :=
  <["uploads/t_a.pdf" := mkFile Sample.doc_A 20000%N]>
    (<["uploads/t_a_clean.pdf" := mkFile Sample.doc_B 30000%N]> ∅).

Definition upload_world : World := mkWorld uploads [].

End More.

(** The pages that [_merge_pdfs] collects and the paths it reports: those
    of the paths that name a file. *)
Definition existing_pages (files : gmap string File) (file_paths : list string)
    : list Page :=
  concat (omap (fun path => file_pages <$> files !! path) file_paths).

Definition existing_paths (files : gmap string File) (file_paths : list string)
    : list string :=
  filter (fun path => is_Some (files !! path)) file_paths.

(** Every ['.pdf'] in [s] directly follows the character [c], where
    [prev] is the character before [s]. *)
Fixpoint pdf_follows (c prev : ascii) (s : string) : bool :=
  match s with
  | EmptyString => true
  | String a s' =>
      (if Path.startswith ".pdf" s then Ascii.eqb prev c else true)
      && pdf_follows c a s'
  end.

(** The test of the scan reporter as a plain boolean. *)
Definition is_suspicious_rect (page_width page_height : Q) (rect : Rect) : bool :=
  match scan_heuristic page_width page_height rect with
  | Ok b => b
  | Raise _ => false
  end.

(** The placements of a page that the scan reporter flags. *)
Definition suspicious (page : Page) : list Rect :=
  filter (fun rect =>
            is_suspicious_rect (width (page_rect page)) (height (page_rect page)) rect = true)
         (image_placements page).

(** The entry of [image_details] for a placement on the page with index
    [page_num]. *)
Definition image_detail (page_num : nat) (page : Page) (rect : Rect)
    : ScanReport.ImageDetail :=
  ScanReport.mkImage (page_num + 1)
    (x0 rect / width (page_rect page), y0 rect / height (page_rect page))
    (width rect, height rect).

(** The entries of [image_details] for the pages of a document, the
    first of which has index [page_num]. *)
Fixpoint image_details_from (page_num : nat) (doc : list Page)
    : list ScanReport.ImageDetail :=
  match doc with
  | [] => []
  | page :: doc' =>
      map (image_detail page_num page) (suspicious page)
      ++ image_details_from (S page_num) doc'
  end.

Definition nonempty {A : Type} (l : list A) : bool :=
  match l with
  | [] => false
  | _ :: _ => true
  end.

(** A report after the pages [doc] were scanned. *)
Definition scanned (page_num : nat) (doc : list Page) (report : ScanReport.t)
    : ScanReport.t :=
  ScanReport.mk
    (ScanReport.pages report)
    (ScanReport.images report + list_sum (map (fun page => length (page_images page)) doc))
    (ScanReport.has_text_watermark report
     || existsb (fun page => has_watermark (page_text page)) doc)
    (ScanReport.has_qr_watermark report || nonempty (image_details_from page_num doc))
    (ScanReport.text_details report)
    (ScanReport.image_details report ++ image_details_from page_num doc).

(** * Properties *)

(** ** Float comparisons *)

Module FloatFacts.

Lemma ltb_lt x y : Float.ltb x y = true <-> x < y.
Proof.
  unfold Float.ltb. rewrite negb_true_iff, <- not_true_iff_false, Qle_bool_iff.
  split; [apply Qnot_le_lt | apply Qlt_not_le].
Qed.

Lemma ltb_ge x y : Float.ltb x y = false <-> y <= x.
Proof. unfold Float.ltb. rewrite negb_false_iff. apply Qle_bool_iff. Qed.

Lemma gtb_gt x y : Float.gtb x y = true <-> y < x.
Proof. apply ltb_lt. Qed.

Lemma gtb_le x y : Float.gtb x y = false <-> x <= y.
Proof. apply ltb_ge. Qed.

Lemma is_zero_false x : Float.is_zero x = false <-> ~ x == 0.
Proof.
  unfold Float.is_zero. rewrite <- not_true_iff_false, Qeq_bool_iff. reflexivity.
Qed.

End FloatFacts.

Example round2_half_even : Float.round2 (1 # 8) == 0.12.
Proof. reflexivity. Qed.

Example round2_half_even_up : Float.round2 (3 # 8) == 0.38.
Proof. reflexivity. Qed.

Example round2_size : Float.round2 (megabytes 1234567) == 1.18.
Proof. reflexivity. Qed.

(** ** Strings and paths *)

Example replace_clean : clean_path "up/a.pdf" = "up/a_clean.pdf".
Proof. reflexivity. Qed.

Example replace_every_occurrence : clean_path "a.pdf.pdf" = "a_clean.pdf_clean.pdf".
Proof. reflexivity. Qed.

Example replace_nothing : clean_path "a.PDF" = "a.PDF".
Proof. reflexivity. Qed.

Example merged_of_clean : merged_path_of (clean_path "a.pdf") = "a_clean_merged.pdf".
Proof. reflexivity. Qed.

Example keyword_camscanner : has_watermark Sample.camscanner_text = true.
Proof. reflexivity. Qed.

Example keyword_case_insensitive : has_watermark (PyStr.lit "SCANNED WITH an app") = true.
Proof. reflexivity. Qed.

Example keyword_none : has_watermark (PyStr.lit "Invoice 42") = false.
Proof. reflexivity. Qed.

Example strip_both_ends : PyStr.strip (PyStr.lit "  ab ") = PyStr.lit "ab".
Proof. reflexivity. Qed.

(** ** Float division *)

Lemma fdiv_ok (x y : Q) : ~ y == 0 -> fdiv x y = Ok (x / y).
Proof.
  intros Hy. unfold fdiv.
  destruct (Float.is_zero y) eqn:E; [| reflexivity].
  apply not_false_iff_true in E. exfalso. apply E.
  apply FloatFacts.is_zero_false. exact Hy.
Qed.

Lemma fdiv_zero (x y : Q) : y == 0 -> fdiv x y = Raise ZeroDivisionError.
Proof.
  intros Hy. unfold fdiv, Float.is_zero.
  apply Qeq_bool_iff in Hy. rewrite Hy. reflexivity.
Qed.

(** ** The region heuristic *)

Lemma region_heuristic_ok (page_width page_height : Q) (rect : Rect) :
  ~ page_width == 0 -> ~ page_height == 0 ->
  region_heuristic page_width page_height rect =
    Ok (Float.gtb (y0 rect / page_height) 0.7
        && Float.gtb (x0 rect / page_width) 0.65
        && Float.ltb (width rect * height rect) 20000
        && Float.ltb (height rect / page_height) 0.12).
Proof.
  intros Hw Hh. unfold region_heuristic.
  rewrite !(fdiv_ok _ page_width Hw), !(fdiv_ok _ page_height Hh).
  reflexivity.
Qed.

Lemma scan_heuristic_ok (page_width page_height : Q) (rect : Rect) :
  ~ page_width == 0 -> ~ page_height == 0 ->
  scan_heuristic page_width page_height rect =
    Ok (Float.gtb (y0 rect / page_height) 0.7
        && Float.gtb (x0 rect / page_width) 0.65
        && Float.ltb (width rect * height rect) 20000).
Proof.
  intros Hw Hh. unfold scan_heuristic.
  rewrite (fdiv_ok _ page_width Hw), (fdiv_ok _ page_height Hh).
  reflexivity.
Qed.

(** C3. On a page with a proper rectangle the region heuristic of the
    redactor returns a classification for every placement rectangle, and
    the classification is positive exactly when the four bounds hold:
    relative x-origin above 0.65, relative y-origin above 0.70, area below
    20000 and relative height below 0.12.  A rectangle that violates any
    one of the four bounds is classified negative. *)
Theorem region_heuristic_four_bounds (page_width page_height : Q) (rect : Rect) :
  ~ page_width == 0 -> ~ page_height == 0 ->
  exists b : bool,
    region_heuristic page_width page_height rect = Ok b
    /\ (b = true <->
        0.65 < x0 rect / page_width
        /\ 0.7 < y0 rect / page_height
        /\ width rect * height rect < 20000
        /\ height rect / page_height < 0.12)
    /\ (x0 rect / page_width <= 0.65 -> b = false)
    /\ (y0 rect / page_height <= 0.7 -> b = false)
    /\ (20000 <= width rect * height rect -> b = false)
    /\ (0.12 <= height rect / page_height -> b = false).
Proof.
  intros Hw Hh. eexists. split; [apply region_heuristic_ok; assumption |].
  split.
  - rewrite !andb_true_iff, !FloatFacts.gtb_gt, !FloatFacts.ltb_lt. tauto.
  - repeat split; intros Hbound.
    + apply FloatFacts.gtb_le in Hbound. rewrite Hbound.
      rewrite andb_false_r. reflexivity.
    + apply FloatFacts.gtb_le in Hbound. rewrite Hbound. reflexivity.
    + apply FloatFacts.ltb_ge in Hbound. rewrite Hbound.
      rewrite andb_false_r. reflexivity.
    + apply FloatFacts.ltb_ge in Hbound. rewrite Hbound.
      apply andb_false_r.
Qed.

Lemma region_heuristic_four_bounds_witness :
  exists b : bool,
    region_heuristic 600 800 Sample.small_stamp = Ok b
    /\ (b = true <->
        0.65 < x0 Sample.small_stamp / 600
        /\ 0.7 < y0 Sample.small_stamp / 800
        /\ width Sample.small_stamp * height Sample.small_stamp < 20000
        /\ height Sample.small_stamp / 800 < 0.12)
    /\ (x0 Sample.small_stamp / 600 <= 0.65 -> b = false)
    /\ (y0 Sample.small_stamp / 800 <= 0.7 -> b = false)
    /\ (20000 <= width Sample.small_stamp * height Sample.small_stamp -> b = false)
    /\ (0.12 <= height Sample.small_stamp / 800 -> b = false).
Proof.
  apply (region_heuristic_four_bounds 600 800 Sample.small_stamp);
    intros H; vm_compute in H; discriminate H.
Defined.

Example small_stamp_is_watermark :
  region_heuristic 600 800 Sample.small_stamp = Ok true.
Proof. reflexivity. Qed.

(** On a page rectangle without width the division raises. *)
Lemma region_heuristic_zero_width (page_height : Q) (rect : Rect) :
  region_heuristic 0 page_height rect = Raise ZeroDivisionError.
Proof.
  unfold region_heuristic. rewrite (fdiv_zero (x0 rect) 0) by reflexivity.
  reflexivity.
Qed.

(** Whatever the redactor classifies as a watermark, the scan reporter
    flags. *)
Lemma region_heuristic_scan_heuristic (page_width page_height : Q) (rect : Rect) :
  region_heuristic page_width page_height rect = Ok true ->
  scan_heuristic page_width page_height rect = Ok true.
Proof.
  unfold region_heuristic, scan_heuristic.
  destruct (fdiv (x0 rect) page_width) as [rel_x|]; simpl; [| discriminate].
  destruct (fdiv (y0 rect) page_height) as [rel_y|]; simpl; [| discriminate].
  destruct (fdiv (width rect) page_width); simpl; [| discriminate].
  destruct (fdiv (height rect) page_height); simpl; [| discriminate].
  intros H. injection H as H.
  apply andb_true_iff in H as [H _]. rewrite H. reflexivity.
Qed.

(** ** The page redactor *)

Lemma page_ok_width (page : Page) : page_ok page = true -> ~ width (page_rect page) == 0.
Proof.
  unfold page_ok. rewrite andb_true_iff, !negb_true_iff.
  intros [H _]. apply FloatFacts.is_zero_false. exact H.
Qed.

Lemma page_ok_height (page : Page) : page_ok page = true -> ~ height (page_rect page) == 0.
Proof.
  unfold page_ok. rewrite andb_true_iff, !negb_true_iff.
  intros [_ H]. apply FloatFacts.is_zero_false. exact H.
Qed.

Lemma overlay_nil (page : Page) : overlay [] page = page.
Proof. destruct page. unfold overlay. simpl. rewrite app_nil_r. reflexivity. Qed.

Lemma draw_rect_overlay (rect : Rect) (rects : list Rect) (page : Page) :
  draw_rect rect (overlay rects page) = overlay (rects ++ [rect]) page.
Proof. unfold draw_rect, overlay. simpl. rewrite app_assoc. reflexivity. Qed.

Lemma is_watermark_rect_ok (page_width page_height : Q) (rect : Rect) :
  ~ page_width == 0 -> ~ page_height == 0 ->
  region_heuristic page_width page_height rect =
    Ok (is_watermark_rect page_width page_height rect).
Proof.
  intros Hw Hh. unfold is_watermark_rect.
  rewrite (region_heuristic_ok _ _ _ Hw Hh). reflexivity.
Qed.

Section Redactor.

Variables page_width page_height : Q.
Hypothesis width_ok : ~ page_width == 0.
Hypothesis height_ok : ~ page_height == 0.

Lemma redact_rects_ok (rects : list Rect) :
  forall (drawn : list Rect) (page : Page) (n : nat),
    redact_rects page_width page_height rects (overlay drawn page) n =
      Ok (overlay (drawn ++ classified page_width page_height rects) page,
          (n + length (classified page_width page_height rects))%nat).
Proof.
  unfold classified.
  induction rects as [| rect rects IH]; intros drawn page n; simpl.
  - rewrite app_nil_r, Nat.add_0_r. reflexivity.
  - rewrite (is_watermark_rect_ok _ _ rect width_ok height_ok). simpl.
    destruct (is_watermark_rect page_width page_height rect) eqn:E.
    + rewrite filter_cons_True by exact E.
      rewrite draw_rect_overlay, IH. simpl.
      rewrite <- app_assoc, Nat.add_succ_r. reflexivity.
    + rewrite filter_cons_False by (rewrite E; discriminate).
      apply IH.
Qed.

Lemma redact_images_ok (images : list Image) :
  forall (drawn : list Rect) (page : Page) (n : nat),
    let placements :=
      flat_map (fun img => get_image_rects page (xref img)) images in
    redact_images page_width page_height images (overlay drawn page) n =
      Ok (overlay (drawn ++ classified page_width page_height placements) page,
          (n + length (classified page_width page_height placements))%nat).
Proof.
  induction images as [| img images IH]; intros drawn page n; simpl.
  - rewrite app_nil_r, Nat.add_0_r. reflexivity.
  - change (get_image_rects (overlay drawn page) (xref img))
      with (get_image_rects page (xref img)).
    rewrite redact_rects_ok. simpl. rewrite IH.
    unfold classified.
    rewrite filter_app, length_app, <- app_assoc, Nat.add_assoc.
    reflexivity.
Qed.

End Redactor.

Lemma draw_rect_single (rect : Rect) (page : Page) :
  draw_rect rect page = overlay [rect] page.
Proof. reflexivity. Qed.

Lemma redact_page_ok (remove_text remove_qr : bool) (page : Page) (n : nat) :
  page_ok page = true ->
  redact_page remove_text remove_qr page n =
    Ok (redacted_page remove_text remove_qr page,
        (n + length (detected remove_text remove_qr page))%nat).
Proof.
  intros Hok.
  pose proof (page_ok_width _ Hok) as Hw.
  pose proof (page_ok_height _ Hok) as Hh.
  unfold redact_page, redacted_page, detected, safety_net, image_placements.
  set (pw := width (page_rect page)) in *.
  set (ph := height (page_rect page)) in *.
  pose proof (redact_images_ok pw ph Hw Hh (page_images page)) as Himages.
  simpl in Himages.
  destruct (remove_text && has_watermark (page_text page)) eqn:Etext;
    destruct remove_qr; simpl.
  - rewrite (draw_rect_single _ page), Himages. simpl.
    rewrite orb_true_r, !draw_rect_overlay, <- !app_assoc.
    rewrite Nat.add_succ_r. reflexivity.
  - rewrite orb_false_r.
    apply andb_true_iff in Etext as [-> _].
    rewrite (draw_rect_single _ page), !draw_rect_overlay. simpl.
    rewrite Nat.add_1_r. reflexivity.
  - specialize (Himages [] page n). rewrite overlay_nil in Himages.
    rewrite Himages. simpl.
    rewrite orb_true_r, !draw_rect_overlay, <- !app_assoc. reflexivity.
  - rewrite orb_false_r, Nat.add_0_r. destruct remove_text.
    + rewrite (draw_rect_single _ page), !draw_rect_overlay. reflexivity.
    + rewrite overlay_nil. reflexivity.
Qed.

Lemma redact_pages_ok (remove_text remove_qr : bool) (doc : list Page) :
  forall n : nat,
    forallb page_ok doc = true ->
    redact_pages remove_text remove_qr doc n =
      Ok (redacted remove_text remove_qr doc,
          (n + count_redactions remove_text remove_qr doc)%nat).
Proof.
  induction doc as [| page doc IH]; intros n Hok; simpl.
  - rewrite Nat.add_0_r. reflexivity.
  - apply andb_true_iff in Hok as [Hpage Hdoc].
    rewrite (redact_page_ok _ _ _ _ Hpage). simpl.
    rewrite (IH _ Hdoc). simpl. rewrite Nat.add_assoc. reflexivity.
Qed.

Lemma length_redacted (remove_text remove_qr : bool) (doc : list Page) :
  length (redacted remove_text remove_qr doc) = length doc.
Proof. apply length_map. Qed.

Lemma has_watermark_nil : has_watermark [] = false.
Proof. reflexivity. Qed.

Lemma detected_blank (remove_text remove_qr : bool) (page : Page) :
  page_text page = [] -> page_images page = [] ->
  detected remove_text remove_qr page = [].
Proof.
  intros Htext Himages. unfold detected, image_placements.
  rewrite Htext, Himages, has_watermark_nil, andb_false_r. simpl.
  destruct remove_qr; reflexivity.
Qed.

Lemma file_ok_pages (f : File) : file_ok f = true -> forallb page_ok (file_pages f) = true.
Proof. unfold file_ok. rewrite andb_true_iff. tauto. Qed.

Lemma file_ok_nonempty (f : File) : file_ok f = true -> file_pages f <> [].
Proof.
  unfold file_ok. rewrite andb_true_iff. intros [H _] Hnil.
  rewrite Hnil in H. discriminate H.
Qed.

(** [_remove_watermarks] on a file that it accepts: it saves the redacted
    document under the derived path and prints its count. *)
Lemma remove_watermarks_ok (env : Env) (input_path : string)
    (remove_text remove_qr : bool) (w : World) (f : File) :
  fs w !! input_path = Some f ->
  clean_path input_path <> input_path ->
  file_ok f = true ->
  _remove_watermarks env input_path remove_text remove_qr w =
    (Ok (clean_path input_path),
     {| fs := <[clean_path input_path := clean_file env remove_text remove_qr f]> (fs w);
        stdout := stdout w
                  ++ [MsgRemoved (count_redactions remove_text remove_qr (file_pages f))] |}).
Proof.
  intros Hfile Hpath Hok.
  unfold _remove_watermarks, bind, fitz_open, lift. rewrite Hfile.
  rewrite (redact_pages_ok _ _ _ _ (file_ok_pages _ Hok)). simpl.
  unfold fitz_save. fold (clean_path input_path).
  rewrite bool_decide_eq_false_2 by exact Hpath.
  pose proof (file_ok_nonempty _ Hok) as Hne.
  unfold clean_file.
  destruct (file_pages f) as [| page doc] eqn:Epages; [contradiction |].
  reflexivity.
Qed.

(** C5. Whenever [remove_text] or [remove_qr] is set, the redactor draws
    on every page of the document, after whatever the detection steps
    drew, the two fixed rectangles: the text zone from 50% of the page
    width and 85% of the page height to 2 units from the edges, and the QR
    zone from 75% of the page width and 85% of the page height to 2 units
    from the edges.  A page without text and without images receives
    exactly these two rectangles. *)
Theorem safety_net_on_every_page (env : Env) (input_path : string)
    (remove_text remove_qr : bool) (w : World) (f : File) :
  fs w !! input_path = Some f ->
  clean_path input_path <> input_path ->
  file_ok f = true ->
  remove_text || remove_qr = true ->
  exists (w' : World) (f' : File),
    _remove_watermarks env input_path remove_text remove_qr w
      = (Ok (clean_path input_path), w')
    /\ fs w' !! clean_path input_path = Some f'
    /\ Forall2
         (fun page page' =>
            let page_width := width (page_rect page) in
            let page_height := height (page_rect page) in
            let zones :=
              [ mkRect (page_width * 0.5) (page_height * 0.85)
                       (page_width - 2) (page_height - 2);
                mkRect (page_width * 0.75) (page_height * 0.85)
                       (page_width - 2) (page_height - 2) ] in
            (exists found, page_drawn page' = page_drawn page ++ found ++ zones)
            /\ (page_text page = [] -> page_images page = [] ->
                page_drawn page' = page_drawn page ++ zones))
         (file_pages f) (file_pages f').
Proof.
  intros Hfile Hpath Hok Hflag.
  eexists _, _. split; [apply (remove_watermarks_ok _ _ _ _ _ _ Hfile Hpath Hok) |].
  simpl. split; [apply lookup_insert_eq |].
  simpl. unfold redacted. apply Forall2_fmap_r, Forall_Forall2_diag.
  apply Forall_forall. intros page _. simpl.
  unfold safety_net. rewrite Hflag. split.
  - exists (detected remove_text remove_qr page). reflexivity.
  - intros Htext Himages.
    rewrite (detected_blank _ _ _ Htext Himages). reflexivity.
Qed.

Lemma safety_net_on_every_page_witness :
  exists (w' : World) (f' : File),
    _remove_watermarks (Sample.env_with None) "c.pdf" false true Sample.world
      = (Ok (clean_path "c.pdf"), w')
    /\ fs w' !! clean_path "c.pdf" = Some f'
    /\ Forall2
         (fun page page' =>
            let page_width := width (page_rect page) in
            let page_height := height (page_rect page) in
            let zones :=
              [ mkRect (page_width * 0.5) (page_height * 0.85)
                       (page_width - 2) (page_height - 2);
                mkRect (page_width * 0.75) (page_height * 0.85)
                       (page_width - 2) (page_height - 2) ] in
            (exists found, page_drawn page' = page_drawn page ++ found ++ zones)
            /\ (page_text page = [] -> page_images page = [] ->
                page_drawn page' = page_drawn page ++ zones))
         [Sample.blank_page; Sample.blank_page; Sample.blank_page] (file_pages f').
Proof.
  apply (safety_net_on_every_page (Sample.env_with None) "c.pdf" false true
           Sample.world
           (mkFile [Sample.blank_page; Sample.blank_page; Sample.blank_page] 300000%N)).
  - reflexivity.
  - vm_compute. discriminate.
  - reflexivity.
  - reflexivity.
Defined.

(** ** The scan reporter against the redactor *)

(** C4. The scan reporter does not apply the region heuristic of the
    redactor: it tests the origin and the area of a placement, not its
    relative height.  For the 100 x 100 image placed at (85%, 90%) of a
    600 x 800 page, whose relative height is 0.125, [scan_pdf] sets
    [has_qr_watermark] and records the placement, while the heuristic of
    [_remove_watermarks] classifies it negative: the redactor counts no
    watermark and draws the two fixed zones only. *)
Theorem scan_pdf_flags_unclassified_stamp :
  scan_heuristic 600 800 Sample.stamp = Ok true
  /\ region_heuristic 600 800 Sample.stamp = Ok false
  /\ (exists report,
        fst (scan_pdf "b.pdf" Sample.world) = Ok report
        /\ ScanReport.has_qr_watermark report = true
        /\ ScanReport.image_details report
           = [ScanReport.mkImage 1 (x0 Sample.stamp / 600, y0 Sample.stamp / 800)
                (width Sample.stamp, height Sample.stamp)])
  /\ (let run :=
        _remove_watermarks (Sample.env_with None) "b.pdf" true true Sample.world in
      fst run = Ok "b_clean.pdf"
      /\ stdout (snd run) = [MsgRemoved 0]
      /\ (map page_drawn ∘ file_pages) <$> fs (snd run) !! "b_clean.pdf"
         = Some [[text_watermark_rect 600 800; qr_rect 600 800]]).
Proof.
  split; [reflexivity |]. split; [reflexivity |]. split.
  - eexists. split; [vm_compute; reflexivity |]. split; reflexivity.
  - repeat split; vm_compute; reflexivity.
Qed.

(** ** The watermark count *)

(** C1, as stated, fails in the scenario of the specification: the two
    files are processed and merged, and the returned [watermarks] is 0,
    not at least 2 (and not the number of redactions performed, which is
    1). *)
Lemma watermarks_scenario_counterexample :
  exists (out : string) (stats : Stats.t),
    fst (process (Sample.env_with None) ["a.pdf"; "b.pdf"] true true true false
           Sample.world) = Ok (out, stats)
    /\ Stats.files stats = 2%nat
    /\ Stats.pages stats = 2%nat
    /\ ~ (2 <= Stats.watermarks stats)%nat
    /\ Stats.watermarks stats
       <> (count_redactions true true [Sample.text_page]
           + count_redactions true true [Sample.stamp_page])%nat.
Proof.
  eexists _, _. split; [vm_compute; reflexivity |].
  simpl. repeat split; [lia | vm_compute; discriminate].
Qed.

(** C1, amended. For every file that the pipeline hands to the redactor,
    the redactor draws on each page the rectangles of the detection steps
    (one when the text of the page matched a keyword and [remove_text] is
    set, one per image placement classified by the region heuristic when
    [remove_qr] is set) followed by the fixed zones, and the count that it
    keeps and prints, [watermarks_removed], is the number of rectangles of
    the detection steps over all pages.  In the scenario of the
    specification the counts are 1 for the file with the CamScanner text
    and 0 for the file with the image, which the heuristic does not
    classify: the merged document carries one redaction of a detection
    step, on its first page. *)
Theorem watermarks_removed_counts_detected (env : Env) (input_path : string)
    (remove_text remove_qr : bool) (w : World) (f : File) :
  fs w !! input_path = Some f ->
  clean_path input_path <> input_path ->
  file_ok f = true ->
  (exists (w' : World) (f' : File),
     _remove_watermarks env input_path remove_text remove_qr w
       = (Ok (clean_path input_path), w')
     /\ fs w' !! clean_path input_path = Some f'
     /\ Forall2
          (fun page page' =>
             page_drawn page' =
               page_drawn page
               ++ detected remove_text remove_qr page
               ++ safety_net remove_text remove_qr page)
          (file_pages f) (file_pages f')
     /\ stdout w' =
          stdout w
          ++ [MsgRemoved
                (list_sum (map (fun page => length (detected remove_text remove_qr page))
                               (file_pages f)))])
  /\ (let run :=
        process env ["a.pdf"; "b.pdf"] true true true false Sample.world in
      printed_counts (stdout (snd run)) = [1; 0]%nat
      /\ (map page_drawn ∘ file_pages) <$> fs (snd run) !! "a_clean_merged.pdf"
         = Some [ [watermark_rect 600 800; text_watermark_rect 600 800; qr_rect 600 800];
                  [text_watermark_rect 600 800; qr_rect 600 800] ]).
Proof.
  intros Hfile Hpath Hok. split.
  - eexists _, _.
    split; [apply (remove_watermarks_ok _ _ _ _ _ _ Hfile Hpath Hok) |].
    simpl. split; [apply lookup_insert_eq |]. split.
    + simpl. unfold redacted. apply Forall2_fmap_r, Forall_Forall2_diag.
      apply Forall_forall. intros page _. reflexivity.
    + do 2 f_equal. f_equal.
      induction (file_pages f) as [| page doc IH]; simpl; [reflexivity |].
      rewrite IH. reflexivity.
  - split; vm_compute; reflexivity.
Qed.

Lemma watermarks_removed_counts_detected_witness :
  (exists (w' : World) (f' : File),
     _remove_watermarks (Sample.env_with None) "a.pdf" true true Sample.world
       = (Ok (clean_path "a.pdf"), w')
     /\ fs w' !! clean_path "a.pdf" = Some f'
     /\ Forall2
          (fun page page' =>
             page_drawn page' =
               page_drawn page ++ detected true true page ++ safety_net true true page)
          [Sample.text_page] (file_pages f')
     /\ stdout w' =
          stdout Sample.world
          ++ [MsgRemoved
                (list_sum (map (fun page => length (detected true true page))
                               [Sample.text_page]))])
  /\ (let run :=
        process (Sample.env_with None) ["a.pdf"; "b.pdf"] true true true false
          Sample.world in
      printed_counts (stdout (snd run)) = [1; 0]%nat
      /\ (map page_drawn ∘ file_pages) <$> fs (snd run) !! "a_clean_merged.pdf"
         = Some [ [watermark_rect 600 800; text_watermark_rect 600 800; qr_rect 600 800];
                  [text_watermark_rect 600 800; qr_rect 600 800] ]).
Proof.
  apply (watermarks_removed_counts_detected (Sample.env_with None) "a.pdf" true true
           Sample.world (mkFile [Sample.text_page] 100000%N)).
  - reflexivity.
  - vm_compute. discriminate.
  - reflexivity.
Defined.

(** ** Derived paths *)

Lemma prefix_pdf_inv (s : string) :
  Path.startswith ".pdf" s = true -> exists t, s = (".pdf" ++ t)%string.
Proof.
  destruct s as [| a [| b [| c [| d t]]]]; cbn [Path.startswith]; intros H;
    repeat (apply andb_true_iff in H as [E H]; apply Ascii.eqb_eq in E; subst);
    try discriminate H.
  exists t. reflexivity.
Qed.

Lemma clean_path_match (t : string) :
  clean_path (".pdf" ++ t)%string = ("_clean.pdf" ++ clean_path t)%string.
Proof. reflexivity. Qed.

Lemma clean_path_copy (c : Ascii.ascii) (s : string) :
  Path.startswith ".pdf" (String c s) = false ->
  clean_path (String c s) = String c (clean_path s).
Proof.
  intros H. unfold clean_path, Path.replace.
  cbn [Path.replace_from]. rewrite H. reflexivity.
Qed.

Lemma path_cases (s : string) :
  s = ""
  \/ (exists t, s = (".pdf" ++ t)%string)
  \/ (exists c s', s = String c s' /\ Path.startswith ".pdf" s = false).
Proof.
  destruct s as [| c s']; [left; reflexivity | right].
  destruct (Path.startswith ".pdf" (String c s')) eqn:E.
  - left. apply prefix_pdf_inv. exact E.
  - right. exists c, s'. split; reflexivity || exact E.
Qed.

(** A character of a derived path other than an underscore was copied
    from the path. *)
Lemma clean_path_copied (a : Ascii.ascii) (r s : string) :
  a <> "_"%char ->
  clean_path s = String a r ->
  exists s', s = String a s' /\ clean_path s' = r /\ Path.startswith ".pdf" s = false.
Proof.
  intros Ha H.
  destruct (path_cases s) as [-> | [[t ->] | (c & s' & -> & Hc)]].
  - discriminate H.
  - rewrite clean_path_match in H. injection H as H _.
    exfalso. apply Ha. symmetry. exact H.
  - rewrite (clean_path_copy _ _ Hc) in H. injection H as -> <-.
    exists s'. repeat split. exact Hc.
Qed.

(** No derived path continues with ["clean.pdf"] after a copied
    underscore. *)
Lemma clean_path_not_clean_pdf (s r : string) :
  clean_path s <> ("clean.pdf" ++ r)%string.
Proof.
  intros H.
  apply clean_path_copied in H as (s1 & -> & H & _); [| discriminate].
  apply clean_path_copied in H as (s2 & -> & H & _); [| discriminate].
  apply clean_path_copied in H as (s3 & -> & H & _); [| discriminate].
  apply clean_path_copied in H as (s4 & -> & H & _); [| discriminate].
  apply clean_path_copied in H as (s5 & -> & H & _); [| discriminate].
  apply clean_path_copied in H as (s6 & -> & H & Hdot); [| discriminate].
  apply clean_path_copied in H as (s7 & -> & H & _); [| discriminate].
  apply clean_path_copied in H as (s8 & -> & H & _); [| discriminate].
  apply clean_path_copied in H as (s9 & -> & H & _); [| discriminate].
  discriminate Hdot.
Qed.

Lemma clean_path_match_copy (t : string) (c : Ascii.ascii) (s : string) :
  Path.startswith ".pdf" (String c s) = false ->
  clean_path (".pdf" ++ t)%string <> clean_path (String c s).
Proof.
  intros Hc H. rewrite clean_path_match, (clean_path_copy _ _ Hc) in H.
  injection H as _ H. symmetry in H.
  apply clean_path_not_clean_pdf in H. exact H.
Qed.

(** Two paths with the same derived path are the same path. *)
Lemma clean_path_inj (s1 s2 : string) : clean_path s1 = clean_path s2 -> s1 = s2.
Proof.
  remember (String.length s1) as n eqn:Hn.
  revert s1 s2 Hn.
  induction n as [n IH] using lt_wf_ind. intros s1 s2 Hn H.
  destruct (path_cases s1) as [-> | [[t1 ->] | (c1 & s1' & -> & Hc1)]];
    destruct (path_cases s2) as [-> | [[t2 ->] | (c2 & s2' & -> & Hc2)]].
  - reflexivity.
  - discriminate H.
  - rewrite (clean_path_copy _ _ Hc2) in H. discriminate H.
  - discriminate H.
  - rewrite !clean_path_match in H.
    f_equal. apply (IH (String.length t1)); [| reflexivity |].
    + subst n. cbv beta iota fix delta [String.append String.length]. lia.
    + cbv beta iota fix delta [String.append] in H. injection H as H. exact H.
  - exfalso. exact (clean_path_match_copy _ _ _ Hc2 H).
  - rewrite (clean_path_copy _ _ Hc1) in H. discriminate H.
  - exfalso. symmetry in H. exact (clean_path_match_copy _ _ _ Hc1 H).
  - rewrite (clean_path_copy _ _ Hc1), (clean_path_copy _ _ Hc2) in H.
    injection H as -> H.
    f_equal. apply (IH (String.length s1')); [| reflexivity | exact H].
    subst n. simpl. lia.
Qed.

(** A path is rewritten exactly when it mentions [".pdf"], and the
    rewritten path mentions it again. *)
Lemma replace_pdf_match (new t : string) :
  Path.replace ".pdf" new (".pdf" ++ t)%string
  = (new ++ Path.replace ".pdf" new t)%string.
Proof. reflexivity. Qed.

Lemma replace_pdf_copy (new : string) (c : Ascii.ascii) (s : string) :
  Path.startswith ".pdf" (String c s) = false ->
  Path.replace ".pdf" new (String c s) = String c (Path.replace ".pdf" new s).
Proof.
  intros H. unfold Path.replace.
  cbn [Path.replace_from]. rewrite H. reflexivity.
Qed.

Lemma replace_pdf_unmentioned (new s : string) :
  mentions_pdf s = false -> Path.replace ".pdf" new s = s.
Proof.
  induction s as [| c s IH]; intros H; [reflexivity |].
  cbn [mentions_pdf] in H. apply orb_false_iff in H as [Hc Hs].
  rewrite (replace_pdf_copy _ _ _ Hc), (IH Hs). reflexivity.
Qed.

Lemma startswith_app (p s r : string) :
  Path.startswith p s = true -> Path.startswith p (s ++ r)%string = true.
Proof.
  revert s. induction p as [| a p IH]; intros s H; [reflexivity |].
  destruct s as [| b s]; [discriminate H |].
  cbn [Path.startswith] in H. apply andb_true_iff in H as [Hab Hp].
  change (String b s ++ r)%string with (String b (s ++ r)%string).
  cbn [Path.startswith]. rewrite Hab, (IH _ Hp). reflexivity.
Qed.

Lemma mentions_pdf_app (s r : string) :
  mentions_pdf s = true -> mentions_pdf (s ++ r)%string = true.
Proof.
  induction s as [| c s IH]; intros H; [discriminate H |].
  change (String c s ++ r)%string with (String c (s ++ r)%string).
  cbn [mentions_pdf] in H |- *.
  apply orb_true_iff in H as [H | H].
  - change (String c (s ++ r)%string) with (String c s ++ r)%string.
    rewrite (startswith_app _ _ r H). reflexivity.
  - rewrite (IH H). apply orb_true_r.
Qed.

Lemma replace_pdf_mentions (new s : string) :
  mentions_pdf new = true ->
  mentions_pdf s = true ->
  mentions_pdf (Path.replace ".pdf" new s) = true.
Proof.
  intros Hnew. induction s as [| c s IH]; intros H; [discriminate H |].
  destruct (Path.startswith ".pdf" (String c s)) eqn:Hc.
  - apply prefix_pdf_inv in Hc as [t ->].
    rewrite replace_pdf_match. apply mentions_pdf_app. exact Hnew.
  - cbn [mentions_pdf] in H. rewrite Hc in H. simpl in H.
    rewrite (replace_pdf_copy _ _ _ Hc).
    cbn [mentions_pdf]. rewrite (IH H). apply orb_true_r.
Qed.

Lemma replace_pdf_changes (c : Ascii.ascii) (new s : string) :
  c <> "."%char ->
  mentions_pdf s = true ->
  Path.replace ".pdf" (String c new) s <> s.
Proof.
  intros Hdot. induction s as [| a s IH]; intros H; [discriminate H |].
  destruct (Path.startswith ".pdf" (String a s)) eqn:Ha.
  - apply prefix_pdf_inv in Ha as [t ->].
    rewrite replace_pdf_match. intros Heq.
    injection Heq as Heq _. contradiction.
  - cbn [mentions_pdf] in H. rewrite Ha in H. simpl in H.
    rewrite (replace_pdf_copy _ _ _ Ha). intros Heq.
    injection Heq as Heq. exact (IH H Heq).
Qed.

(** The compressed path of a merged path differs from it. *)
Lemma compressed_path_fresh (first : string) :
  clean_path first <> first ->
  compressed_path_of (merged_path_of (clean_path first))
  <> merged_path_of (clean_path first).
Proof.
  intros Hclean. apply replace_pdf_changes; [discriminate |].
  apply replace_pdf_mentions; [reflexivity |].
  apply replace_pdf_mentions; [reflexivity |].
  destruct (mentions_pdf first) eqn:E; [reflexivity |].
  exfalso. apply Hclean. apply replace_pdf_unmentioned. exact E.
Qed.

(** ** The document pipeline *)

Lemma Forall2_zip_elem {A B : Type} (R : A -> B -> Prop) (l : list A) (k : list B) :
  Forall2 R l k -> forall x y, (x, y) ∈ zip l k -> R x y.
Proof.
  induction 1 as [| a b l k Hab _ IH]; intros x y Hin; simpl in Hin.
  - apply elem_of_nil in Hin. contradiction.
  - apply elem_of_cons in Hin as [Heq | Hin].
    + injection Heq as -> ->. exact Hab.
    + apply IH. exact Hin.
Qed.

Lemma Forall2_zip_impl {A B : Type} (R P : A -> B -> Prop) (l : list A) (k : list B) :
  Forall2 R l k ->
  (forall x y, (x, y) ∈ zip l k -> P x y) ->
  Forall2 P l k.
Proof.
  induction 1 as [| a b l k _ _ IH]; intros HP; constructor.
  - apply HP. simpl. apply list_elem_of_here.
  - apply IH. intros x y Hin. apply HP. simpl. apply list_elem_of_further. exact Hin.
Qed.

Lemma remove_temporaries_ok (merged_path : string) (processed_pdfs : list string) :
  forall w : World,
    remove_temporaries processed_pdfs merged_path w =
      (Ok tt, {| fs := without_temporaries processed_pdfs merged_path (fs w);
                 stdout := stdout w |}).
Proof.
  induction processed_pdfs as [| fp processed_pdfs IH]; intros w; simpl.
  - destruct w. reflexivity.
  - unfold bind, os_path_exists.
    destruct (bool_decide (is_Some (fs w !! fp))) eqn:Epresent; simpl.
    + destruct (bool_decide (fp = merged_path)); simpl.
      * unfold ret. rewrite IH. reflexivity.
      * unfold os_remove.
        apply bool_decide_eq_true in Epresent as [f Hf]. rewrite Hf.
        rewrite IH. reflexivity.
    + unfold ret. rewrite IH. reflexivity.
Qed.

Lemma without_temporaries_lookup (merged_path : string) (processed_pdfs : list string) :
  forall files : gmap string File,
    without_temporaries processed_pdfs merged_path files !! merged_path
    = files !! merged_path.
Proof.
  induction processed_pdfs as [| fp processed_pdfs IH]; intros files; simpl.
  - reflexivity.
  - rewrite IH.
    destruct (bool_decide (is_Some (files !! fp))); simpl; [| reflexivity].
    destruct (bool_decide (fp = merged_path)) eqn:E; simpl; [reflexivity |].
    apply bool_decide_eq_false in E. apply lookup_delete_ne. exact E.
Qed.

Lemma merge_loop_ok (file_paths : list string) :
  forall (docs : list (list Page)) (pdf_writer : list Page) (w : World),
    Forall2 (fun path doc => file_pages <$> fs w !! path = Some doc) file_paths docs ->
    merge_loop file_paths pdf_writer w =
      (Ok (pdf_writer ++ concat docs),
       {| fs := fs w; stdout := stdout w ++ map MsgMerged file_paths |}).
Proof.
  induction file_paths as [| path file_paths IH]; intros docs pdf_writer w Hfiles.
  - apply Forall2_nil_inv_l in Hfiles as ->. simpl.
    rewrite !app_nil_r. destruct w. reflexivity.
  - apply Forall2_cons_inv_l in Hfiles as (doc & docs' & Hpath & Hfiles & ->).
    simpl. unfold bind, os_path_exists, PdfReader, print.
    destruct (fs w !! path) as [f |] eqn:Ef; [| discriminate Hpath].
    injection Hpath as <-.
    rewrite bool_decide_eq_true_2 by (exists f; reflexivity).
    simpl. rewrite Ef. rewrite (IH docs') by exact Hfiles. simpl.
    rewrite <- !app_assoc. reflexivity.
Qed.

Section PipelineFacts.

Variable env : Env.
Variables remove_text remove_qr : bool.

Lemma merge_pdfs_ok (first : string) (rest : list string) (docs : list (list Page))
    (w : World) :
  Forall2 (fun path doc => file_pages <$> fs w !! path = Some doc) (first :: rest) docs ->
  _merge_pdfs env (first :: rest) w =
    (Ok (merged_path_of first),
     {| fs := <[merged_path_of first :=
                  mkFile (concat docs) (write_size env (concat docs))]> (fs w);
        stdout := stdout w ++ map MsgMerged (first :: rest)
                  ++ [MsgMergeDone (S (length rest))] |}).
Proof.
  intros Hfiles. unfold _merge_pdfs, bind.
  rewrite (merge_loop_ok (first :: rest) docs) by exact Hfiles.
  simpl. rewrite <- !app_assoc. reflexivity.
Qed.

Lemma lookup_save_all (inputs : list (string * File)) :
  forall (files : gmap string File) (key : string) (v : File),
    (forall path f, (path, f) ∈ inputs -> clean_path path = key ->
                    clean_file env remove_text remove_qr f = v) ->
    (files !! key = Some v
     \/ exists path f, (path, f) ∈ inputs /\ clean_path path = key) ->
    save_all env remove_text remove_qr inputs files !! key = Some v.
Proof.
  induction inputs as [| [path0 f0] inputs IH]; intros files key v Hsame Hsome; simpl.
  - destruct Hsome as [H | (path & f & Hin & _)]; [exact H |].
    apply elem_of_nil in Hin. contradiction.
  - apply IH.
    + intros path f Hin. apply Hsame. apply list_elem_of_further. exact Hin.
    + destruct (decide (clean_path path0 = key)) as [Hkey | Hkey].
      * left. rewrite <- Hkey, lookup_insert_eq. f_equal.
        apply (Hsame path0 f0); [apply list_elem_of_here | exact Hkey].
      * destruct Hsome as [H | (path & f & Hin & Hpath)].
        -- left. rewrite lookup_insert_ne by exact Hkey. exact H.
        -- apply elem_of_cons in Hin as [Heq | Hin].
           ++ injection Heq as -> ->. contradiction.
           ++ right. exists path, f. split; assumption.
Qed.

Lemma process_loop_merge (len total_watermarks : nat)
    (file_paths : list string) (files : list File) :
  Forall2 (fun path f => file_ok f = true) file_paths files ->
  forall (i total_pages : nat) (processed_pdfs : list string) (w : World),
    Forall2 (fun path f => fs w !! path = Some f) file_paths files ->
    (forall p q, p ∈ file_paths -> q ∈ file_paths -> clean_path p <> q) ->
    process_loop env len remove_text remove_qr true total_watermarks i
      file_paths total_pages processed_pdfs w =
      (Ok (inr ((total_pages + page_total files)%nat,
                processed_pdfs ++ map clean_path file_paths)),
       {| fs := save_all env remove_text remove_qr (zip file_paths files) (fs w);
          stdout := stdout w
                    ++ loop_output i len remove_text remove_qr (zip file_paths files) |}).
Proof.
  induction 1 as [| path f file_paths files Hok _ IH];
    intros i total_pages processed_pdfs w Hfiles Hfresh; simpl.
  - unfold ret, page_total. simpl.
    rewrite Nat.add_0_r, !app_nil_r. destruct w. reflexivity.
  - apply Forall2_cons in Hfiles as [Hpath Hfiles].
    assert (Hclean : clean_path path <> path).
    { apply Hfresh; apply list_elem_of_here. }
    unfold bind at 1. unfold print at 1.
    unfold bind at 1.
    rewrite (remove_watermarks_ok env path remove_text remove_qr
               {| fs := fs w; stdout := stdout w ++ [MsgProcessing (i + 1) len path] |}
               f Hpath Hclean Hok).
    unfold bind at 1. unfold fitz_open at 1. simpl.
    rewrite lookup_insert_eq. simpl.
    rewrite IH.
    + simpl. unfold page_total. simpl. rewrite length_redacted.
      rewrite <- !app_assoc, Nat.add_assoc. reflexivity.
    + simpl. eapply Forall2_zip_impl; [exact Hfiles |].
      intros p' f' Hin.
      rewrite lookup_insert_ne.
      * exact (Forall2_zip_elem _ _ _ Hfiles _ _ Hin).
      * apply Hfresh; [apply list_elem_of_here |].
        apply list_elem_of_further.
        apply elem_of_zip_l in Hin. exact Hin.
    + intros p q Hp Hq. apply Hfresh; apply list_elem_of_further; assumption.
Qed.

End PipelineFacts.

(** C6. With [merge] unset, [process] returns after the first file of the
    list: it redacts that file alone, so that the only file written is the
    redacted first file and the only lines printed are those of the first
    file, whatever the rest of the list is; the returned [files] is the
    length of the whole list and the returned [pages] is the number of
    pages of the first file. *)
Theorem process_without_merge_first_file_only (env : Env)
    (filepath : string) (rest : list string)
    (remove_text remove_qr compress : bool) (w : World) (f : File) :
  fs w !! filepath = Some f ->
  clean_path filepath <> filepath ->
  file_ok f = true ->
  exists stats : Stats.t,
    process env (filepath :: rest) remove_text remove_qr false compress w =
      (Ok (clean_path filepath, stats),
       {| fs := <[clean_path filepath := clean_file env remove_text remove_qr f]> (fs w);
          stdout := stdout w
                    ++ [MsgProcessing 1 (S (length rest)) filepath;
                        MsgRemoved (count_redactions remove_text remove_qr (file_pages f))] |})
    /\ Stats.files stats = length (filepath :: rest)
    /\ Stats.pages stats = length (file_pages f).
Proof.
  intros Hfile Hpath Hok. eexists. split.
  - unfold process. simpl process_loop.
    unfold bind at 1. unfold bind at 1. unfold print at 1.
    unfold bind at 1.
    rewrite (remove_watermarks_ok _ _ _ _ _ f); [| exact Hfile | exact Hpath | exact Hok].
    unfold bind at 1. unfold fitz_open at 1. simpl.
    rewrite lookup_insert_eq. simpl.
    unfold bind, os_path_getsize. simpl.
    rewrite lookup_insert_eq. simpl. unfold ret.
    rewrite <- app_assoc. reflexivity.
  - simpl. split; [reflexivity | apply length_redacted].
Qed.

Lemma process_without_merge_first_file_only_witness :
  exists stats : Stats.t,
    process (Sample.env_with (Some Sample.gs_ok)) ["A.pdf"; "B.pdf"; "c.pdf"]
      true true false true Sample.world =
      (Ok (clean_path "A.pdf", stats),
       {| fs := <[clean_path "A.pdf" :=
                    clean_file (Sample.env_with (Some Sample.gs_ok)) true true
                      (mkFile Sample.doc_A 20000%N)]> (fs Sample.world);
          stdout := stdout Sample.world
                    ++ [MsgProcessing 1 3 "A.pdf";
                        MsgRemoved (count_redactions true true Sample.doc_A)] |})
    /\ Stats.files stats = 3%nat
    /\ Stats.pages stats = 2%nat.
Proof.
  apply (process_without_merge_first_file_only (Sample.env_with (Some Sample.gs_ok))
           "A.pdf" ["B.pdf"; "c.pdf"] true true true Sample.world
           (mkFile Sample.doc_A 20000%N)).
  - reflexivity.
  - vm_compute. discriminate.
  - reflexivity.
Defined.

(** The redacted documents are in place when the loop of [process] has
    run: each derived path holds the redacted document of its input. *)
Lemma save_all_lookup (env : Env) (remove_text remove_qr : bool)
    (file_paths : list string) (files : list File) (w : World) :
  Forall2 (fun path f => fs w !! path = Some f) file_paths files ->
  Forall2
    (fun path doc =>
       file_pages <$> save_all env remove_text remove_qr (zip file_paths files) (fs w) !! path
       = Some doc)
    (map clean_path file_paths)
    (map (fun f => redacted remove_text remove_qr (file_pages f)) files).
Proof.
  intros Hfiles. apply Forall2_fmap.
  eapply Forall2_zip_impl; [exact Hfiles |].
  intros path f Hin.
  rewrite (lookup_save_all env remove_text remove_qr _ _ _
             (clean_file env remove_text remove_qr f)).
  - reflexivity.
  - intros path' f' Hin' Hsame.
    apply clean_path_inj in Hsame.
    pose proof (Forall2_zip_elem _ _ _ Hfiles _ _ Hin) as H.
    pose proof (Forall2_zip_elem _ _ _ Hfiles _ _ Hin') as H'.
    simpl in H, H'. f_equal. congruence.
  - right. exists path, f. split; [exact Hin | reflexivity].
Qed.

(** X21. With [merge] set and more than one input file, none of which is
    the intermediate file of an input, [process] returns a merged document
    whose pages are the pages of the redacted documents, concatenated in
    the order of the input list; every redacted document has as many pages
    as its input, and the returned [pages] is the number of pages of the
    merged document. *)
Theorem merge_concatenates_in_input_order (env : Env)
    (file_paths : list string) (files : list File)
    (remove_text remove_qr : bool) (w : World) :
  (1 < length file_paths)%nat ->
  Forall2 (fun path f => fs w !! path = Some f /\ file_ok f = true) file_paths files ->
  (forall p q, p ∈ file_paths -> q ∈ file_paths -> clean_path p <> q) ->
  exists (merged_path : string) (stats : Stats.t) (w' : World) (merged : File),
    process env file_paths remove_text remove_qr true false w
      = (Ok (merged_path, stats), w')
    /\ fs w' !! merged_path = Some merged
    /\ file_pages merged
       = concat (map (fun f => redacted remove_text remove_qr (file_pages f)) files)
    /\ Forall (fun f => length (redacted remove_text remove_qr (file_pages f))
                        = length (file_pages f)) files
    /\ Stats.pages stats = length (file_pages merged).
Proof.
  intros Hlen Hinputs Hfresh.
  assert (Hok : Forall2 (fun (path : string) f => file_ok f = true) file_paths files).
  { eapply Forall2_impl; [exact Hinputs |]. intros ? ? [_ H]. exact H. }
  assert (Hfiles : Forall2 (fun path f => fs w !! path = Some f) file_paths files).
  { eapply Forall2_impl; [exact Hinputs |]. intros ? ? [H _]. exact H. }
  pose proof (save_all_lookup env remove_text remove_qr _ _ _ Hfiles) as Hsaved.
  unfold process. unfold bind at 1.
  rewrite (process_loop_merge env remove_text remove_qr _ _ _ _ Hok _ _ _ _ Hfiles Hfresh).
  cbn [app Nat.add].
  destruct file_paths as [| first [| second rest]]; [simpl in Hlen; lia .. |].
  set (docs := map (fun f => redacted remove_text remove_qr (file_pages f)) files) in *.
  set (w1 := {| fs := save_all env remove_text remove_qr
                        (zip (first :: second :: rest) files) (fs w);
                stdout := _ |}).
  change (true && (1 <? length (map clean_path (first :: second :: rest)))%nat) with true.
  cbv iota.
  unfold bind at 1. unfold bind at 1.
  change (map clean_path (first :: second :: rest))
    with (clean_path first :: map clean_path (second :: rest)) in *.
  rewrite (merge_pdfs_ok env _ _ docs w1 Hsaved).
  unfold bind at 1. rewrite remove_temporaries_ok.
  unfold ret at 1. unfold bind at 1. unfold os_path_getsize at 1.
  cbn [fs stdout].
  rewrite without_temporaries_lookup, lookup_insert_eq.
  unfold ret.
  eexists _, _, _, _. split; [reflexivity |].
  cbn [fs stdout Stats.pages file_pages].
  split; [rewrite without_temporaries_lookup; apply lookup_insert_eq |].
  split; [reflexivity |].
  split.
  - apply Forall_forall. intros f _. apply length_redacted.
  - subst docs. clear. unfold page_total.
    induction files as [| f files IH]; simpl; [reflexivity |].
    rewrite length_app, length_redacted, IH. reflexivity.
Qed.

(** With [compress] set and a Ghostscript that succeeds, the same merged
    document is handed to Ghostscript: [process] returns what Ghostscript
    made of it, under the compressed path, and removes the merged file. *)
Lemma process_compresses_merged_document (env : Env)
    (file_paths : list string) (files : list File)
    (remove_text remove_qr : bool) (w : World) (tool : File -> option File) (out : File) :
  (1 < length file_paths)%nat ->
  Forall2 (fun path f => fs w !! path = Some f /\ file_ok f = true) file_paths files ->
  (forall p q, p ∈ file_paths -> q ∈ file_paths -> clean_path p <> q) ->
  let docs := map (fun f => redacted remove_text remove_qr (file_pages f)) files in
  let merged := mkFile (concat docs) (write_size env (concat docs)) in
  gs env = Some tool ->
  tool merged = Some out ->
  exists (merged_path : string) (stats : Stats.t) (w' : World),
    process env file_paths remove_text remove_qr true true w
      = (Ok (compressed_path_of merged_path, stats), w')
    /\ fs w' !! compressed_path_of merged_path = Some out
    /\ fs w' !! merged_path = None
    /\ last (stdout w') = Some MsgCompressed
    /\ Stats.size_mb stats = Float.round2 (megabytes (file_size out)).
Proof.
  intros Hlen Hinputs Hfresh docs merged Hgs Htool.
  assert (Hok : Forall2 (fun (path : string) f => file_ok f = true) file_paths files).
  { eapply Forall2_impl; [exact Hinputs |]. intros ? ? [_ H]. exact H. }
  assert (Hfiles : Forall2 (fun path f => fs w !! path = Some f) file_paths files).
  { eapply Forall2_impl; [exact Hinputs |]. intros ? ? [H _]. exact H. }
  pose proof (save_all_lookup env remove_text remove_qr _ _ _ Hfiles) as Hsaved.
  unfold process. unfold bind at 1.
  rewrite (process_loop_merge env remove_text remove_qr _ _ _ _ Hok _ _ _ _ Hfiles Hfresh).
  cbn [app Nat.add].
  destruct file_paths as [| first [| second rest]]; [simpl in Hlen; lia .. |].
  assert (Hfirst : clean_path first <> first).
  { apply Hfresh; apply list_elem_of_here. }
  pose proof (compressed_path_fresh first Hfirst) as Hcompressed.
  fold docs in Hsaved.
  set (w1 := {| fs := save_all env remove_text remove_qr
                        (zip (first :: second :: rest) files) (fs w);
                stdout := _ |}).
  change (true && (1 <? length (map clean_path (first :: second :: rest)))%nat) with true.
  cbv iota.
  unfold bind at 1. unfold bind at 1.
  change (map clean_path (first :: second :: rest))
    with (clean_path first :: map clean_path (second :: rest)) in *.
  rewrite (merge_pdfs_ok env _ _ docs w1 Hsaved).
  unfold bind at 1. rewrite remove_temporaries_ok.
  unfold bind at 1.
  unfold _compress_pdf, try_except. unfold bind at 1. unfold subprocess_run_gs.
  rewrite Hgs. cbn [fs stdout].
  rewrite without_temporaries_lookup, lookup_insert_eq.
  fold merged. cbn [mbind option_bind]. rewrite Htool.
  unfold write_file at 1. cbn [fs stdout].
  unfold bind at 1. unfold print at 1. cbn [fs stdout]. unfold ret at 1.
  fold (compressed_path_of (merged_path_of (clean_path first))).
  unfold bind at 1. unfold os_remove at 1. cbn [fs stdout].
  rewrite lookup_insert_ne by exact Hcompressed.
  rewrite without_temporaries_lookup, lookup_insert_eq.
  unfold ret at 1. unfold bind at 1. unfold os_path_getsize at 1. cbn [fs stdout].
  rewrite lookup_delete_ne by (intros Heq; apply Hcompressed; symmetry; exact Heq).
  rewrite lookup_insert_eq. unfold ret.
  eexists _, _, _. split; [reflexivity |].
  cbn [fs stdout Stats.size_mb].
  split; [rewrite lookup_delete_ne by (intros Heq; apply Hcompressed; symmetry; exact Heq);
          apply lookup_insert_eq |].
  split; [apply lookup_delete_eq |].
  split; [apply last_snoc | reflexivity].
Qed.

Lemma merge_concatenates_in_input_order_witness :
  exists (merged_path : string) (stats : Stats.t) (w' : World) (merged : File),
    process (Sample.env_with None) ["A.pdf"; "B.pdf"] true true true false Sample.world
      = (Ok (merged_path, stats), w')
    /\ fs w' !! merged_path = Some merged
    /\ file_pages merged
       = concat (map (fun f => redacted true true (file_pages f))
                     [mkFile Sample.doc_A 20000%N; mkFile Sample.doc_B 30000%N])
    /\ Forall (fun f => length (redacted true true (file_pages f))
                        = length (file_pages f))
              [mkFile Sample.doc_A 20000%N; mkFile Sample.doc_B 30000%N]
    /\ Stats.pages stats = length (file_pages merged).
Proof.
  apply (merge_concatenates_in_input_order (Sample.env_with None)
           ["A.pdf"; "B.pdf"]
           [mkFile Sample.doc_A 20000%N; mkFile Sample.doc_B 30000%N]
           true true Sample.world).
  - simpl. lia.
  - repeat constructor.
  - intros p q Hp Hq.
    repeat (apply elem_of_cons in Hp as [-> | Hp]);
      try (apply elem_of_nil in Hp; contradiction);
      repeat (apply elem_of_cons in Hq as [-> | Hq]);
      try (apply elem_of_nil in Hq; contradiction);
      vm_compute; discriminate.
Defined.

(** C7. The merged document is not always the concatenation of the
    redacted documents: when an input is named like the intermediate file
    of an earlier input, the redacted copy of the earlier one is saved
    over it.  For the uploads [a.pdf] (pages A1, A2) and [a_clean.pdf]
    (pages B1, B2, B3), with any flags, [process] returns a merged
    document with the pages A1, A2, A1, A2, which is not the
    concatenation of the two redacted documents, returns [pages] = 4, and
    leaves no file with the pages of the second upload. *)
Theorem merge_loses_colliding_upload (env : Env) (remove_text remove_qr : bool) :
  let run :=
    process env ["uploads/t_a.pdf"; "uploads/t_a_clean.pdf"] remove_text remove_qr
      true false More.upload_world in
  let docs := map (redacted remove_text remove_qr) [Sample.doc_A; Sample.doc_B] in
  let merged := file_pages <$> fs (snd run) !! "uploads/t_a_clean_merged.pdf" in
  fst <$> fst_ok run = Some "uploads/t_a_clean_merged.pdf"
  /\ map page_text <$> merged = Some (map PyStr.lit ["A1"; "A2"; "A1"; "A2"])
  /\ merged <> Some (concat docs)
  /\ Stats.pages ∘ snd <$> fst_ok run = Some 4%nat
  /\ fs (snd run) !! "uploads/t_a_clean.pdf" = None
  /\ dom (fs (snd run))
     = ({["uploads/t_a.pdf"; "uploads/t_a_clean_merged.pdf"]} : gset string).
Proof.
  intros run docs merged. subst run docs merged.
  destruct remove_text, remove_qr; repeat split;
    try (vm_compute; reflexivity);
    intros H; apply (f_equal (fmap (M := option) (@length Page))) in H;
    vm_compute in H; discriminate H.
Qed.

(** A document of 2 pages merged with a document of 3 pages: 5 pages, in
    the order A, A, B, B, B. *)
Example merge_A_B_page_order :
  let run :=
    process (Sample.env_with None) ["A.pdf"; "B.pdf"] true true true false Sample.world in
  fst <$> fst_ok run = Some "A_clean_merged.pdf"
  /\ (map page_text ∘ file_pages) <$> fs (snd run) !! "A_clean_merged.pdf"
     = Some (map PyStr.lit ["A1"; "A2"; "B1"; "B2"; "B3"]).
Proof. split; vm_compute; reflexivity. Qed.

(** ** Compression *)

(** With [merge] set the loop of [process] has no early return, and it
    appends one path per input file. *)
Lemma process_loop_merge_shape (env : Env) (len : nat) (remove_text remove_qr : bool)
    (total_watermarks : nat) (file_paths : list string) :
  forall (i total_pages : nat) (processed_pdfs : list string) (w w' : World) r,
    process_loop env len remove_text remove_qr true total_watermarks i
      file_paths total_pages processed_pdfs w = (Ok r, w') ->
    exists total_pages' processed_pdfs',
      r = inr (total_pages', processed_pdfs')
      /\ length processed_pdfs' = (length processed_pdfs + length file_paths)%nat.
Proof.
  induction file_paths as [| filepath file_paths IH];
    intros i total_pages processed_pdfs w w' r Hrun; simpl in Hrun.
  - injection Hrun as <- _. eexists _, _. split; [reflexivity |]. simpl. lia.
  - unfold bind in Hrun at 1. unfold print in Hrun at 1.
    unfold bind in Hrun at 1.
    destruct (_remove_watermarks _ _ _ _ _) as [[clean_path' | e] w1];
      [| discriminate Hrun].
    unfold bind in Hrun at 1.
    destruct (fitz_open clean_path' w1) as [[doc | e] w2]; [| discriminate Hrun].
    apply IH in Hrun as (total_pages' & processed_pdfs' & -> & Hlength).
    eexists _, _. split; [reflexivity |].
    rewrite Hlength, length_app. simpl. lia.
Qed.

(** When [_merge_pdfs] returns, the file it names exists. *)
Lemma merge_pdfs_output_exists (env : Env) (file_paths : list string)
    (w w' : World) (merged_path : string) :
  _merge_pdfs env file_paths w = (Ok merged_path, w') ->
  is_Some (fs w' !! merged_path).
Proof.
  unfold _merge_pdfs, bind. intros Hrun.
  destruct (merge_loop file_paths [] w) as [[pdf_writer | e] w1]; [| discriminate Hrun].
  destruct file_paths as [| first rest]; simpl in Hrun; [discriminate Hrun |].
  injection Hrun as <- <-. simpl. rewrite lookup_insert_eq. eexists. reflexivity.
Qed.

(** When Ghostscript cannot compress, [_compress_pdf] raises
    [FileNotFoundError] (no executable) or returns its input path (non-zero
    status), and it leaves the files as they are. *)
Lemma compress_pdf_unavailable (env : Env) (input_path : string) (w : World) :
  gs_unavailable env ->
  (gs env = None /\ _compress_pdf env input_path w = (Raise FileNotFoundError, w))
  \/ (_compress_pdf env input_path w =
        (Ok input_path, {| fs := fs w; stdout := stdout w ++ [MsgCompressSkipped] |})).
Proof.
  unfold gs_unavailable, _compress_pdf, try_except, bind, subprocess_run_gs.
  destruct (gs env) as [tool |]; intros Hgs.
  - right.
    destruct (fs w !! input_path) as [f |]; simpl; [rewrite Hgs |]; reflexivity.
  - left. split; reflexivity.
Qed.

(** The general form of the failure behind C2: with [merge] and
    [compress] set and more than one input file, a Ghostscript that cannot
    compress makes [process] raise, whatever the input files are. *)
Lemma process_raises_when_ghostscript_fails (env : Env) (file_paths : list string)
    (remove_text remove_qr : bool) (w : World) :
  gs_unavailable env ->
  (1 < length file_paths)%nat ->
  exists e : exn,
    fst (process env file_paths remove_text remove_qr true true w) = Raise e.
Proof.
  intros Hgs Hlen. unfold process. unfold bind at 1.
  destruct (process_loop _ _ _ _ _ _ _ _ _ _ _) as [[r | e] w1] eqn:Hloop;
    [| eexists; reflexivity].
  apply process_loop_merge_shape in Hloop as (total_pages & processed_pdfs & -> & Hlength).
  simpl in Hlength.
  replace (1 <? length processed_pdfs)%nat with true
    by (symmetry; apply Nat.ltb_lt; lia).
  cbn [andb]. unfold bind at 1. unfold bind at 1.
  destruct (_merge_pdfs env processed_pdfs w1) as [[merged_path | e] w2] eqn:Hmerge;
    [| eexists; reflexivity].
  apply merge_pdfs_output_exists in Hmerge as [merged Hmerged].
  unfold bind at 1. rewrite remove_temporaries_ok. unfold bind at 1.
  set (w3 := {| fs := without_temporaries processed_pdfs merged_path (fs w2);
                stdout := stdout w2 |}).
  destruct (compress_pdf_unavailable env merged_path w3 Hgs) as [[_ ->] | ->];
    [eexists; reflexivity |].
  unfold bind at 1. unfold os_remove at 1. subst w3. cbn [fs stdout].
  rewrite without_temporaries_lookup, Hmerged.
  unfold ret at 1. unfold bind at 1. unfold os_path_getsize. cbn [fs stdout].
  rewrite lookup_delete_eq. eexists. reflexivity.
Qed.

(** C2. When Ghostscript fails, [process] does not return the merged
    document: for two files with [merge] and [compress] set it raises
    [FileNotFoundError], both when there is no [gs] executable (the
    exception of [subprocess.run] is not caught) and when [gs] exits with a
    non-zero status (the merged file, which [_compress_pdf] returned, is
    removed before its size is read); in the second case the merged
    document is no longer on disk. *)
Theorem compression_failure_raises :
  let missing :=
    process (Sample.env_with None) ["a.pdf"; "b.pdf"] true true true true Sample.world in
  let failing :=
    process (Sample.env_with (Some Sample.gs_fails)) ["a.pdf"; "b.pdf"]
      true true true true Sample.world in
  fst missing = Raise FileNotFoundError
  /\ fst failing = Raise FileNotFoundError
  /\ last (stdout (snd failing)) = Some MsgCompressSkipped
  /\ fs (snd failing) !! "a_clean_merged.pdf" = None.
Proof. repeat split; vm_compute; reflexivity. Qed.

(** C8. A single input file is never compressed: with [merge] set,
    [process] on one file does the same with [compress] set as with
    [compress] unset, whatever Ghostscript would do.  With a working
    Ghostscript and [compress] set it returns the redacted file itself,
    prints no compression line and writes no compressed file. *)
Theorem single_file_is_not_compressed :
  (forall (env : Env) (filepath : string) (remove_text remove_qr : bool) (w : World),
     process env [filepath] remove_text remove_qr true true w
     = process env [filepath] remove_text remove_qr true false w)
  /\ (let run :=
        process (Sample.env_with (Some Sample.gs_ok)) ["a.pdf"] true true true true
          Sample.world in
      fst <$> fst_ok run = Some "a_clean.pdf"
      /\ stdout (snd run) = [MsgProcessing 1 1 "a.pdf"; MsgRemoved 1]
      /\ fs (snd run) !! "a_clean_compressed.pdf" = None
      /\ file_size <$> fs (snd run) !! "a_clean.pdf" = Some 1234567%N).
Proof.
  split.
  - intros env filepath remove_text remove_qr w.
    unfold process. simpl process_loop. unfold bind.
    destruct (print _ w) as [[[] | e] w0]; [| reflexivity].
    destruct (_remove_watermarks _ _ _ _ _) as [[clean_path' | e] w1]; [| reflexivity].
    destruct (fitz_open clean_path' w1) as [[doc | e] w2]; reflexivity.
  - repeat split; vm_compute; reflexivity.
Qed.

(** ** The size of the output *)

(** C9. The early return of [process] does not round: for one file whose
    redacted copy has 1234567 bytes, [process] with [merge] unset returns
    [size_mb] = 1234567 / 1048576, which is not a number rounded to two
    decimals, while the normal return (the same call with [merge] set)
    returns the rounded 1.18. *)
Theorem early_return_size_not_rounded :
  let early :=
    process (Sample.env_with None) ["a.pdf"] true true false false Sample.world in
  let normal :=
    process (Sample.env_with None) ["a.pdf"] true true true false Sample.world in
  (Stats.size_mb ∘ snd) <$> fst_ok early = Some (megabytes 1234567)
  /\ ~ megabytes 1234567 == Float.round2 (megabytes 1234567)
  /\ (Stats.size_mb ∘ snd) <$> fst_ok normal = Some (Float.round2 (megabytes 1234567))
  /\ Float.round2 (megabytes 1234567) == 1.18.
Proof.
  split; [vm_compute; reflexivity |].
  split; [intros H; vm_compute in H; discriminate H |].
  split; vm_compute; reflexivity.
Qed.

(** ** The scan reporter *)

(** The test of the scan reporter has three bounds: it does not look at
    the relative height. *)
Lemma scan_heuristic_three_bounds (page_width page_height : Q) (rect : Rect) :
  ~ page_width == 0 -> ~ page_height == 0 ->
  exists b : bool,
    scan_heuristic page_width page_height rect = Ok b
    /\ (b = true <->
        0.65 < x0 rect / page_width
        /\ 0.7 < y0 rect / page_height
        /\ width rect * height rect < 20000).
Proof.
  intros Hw Hh. eexists. split; [apply scan_heuristic_ok; assumption |].
  rewrite !andb_true_iff, !FloatFacts.gtb_gt, !FloatFacts.ltb_lt. tauto.
Qed.

Section Scan.

Variables page_width page_height : Q.
Hypothesis width_ok : ~ page_width == 0.
Hypothesis height_ok : ~ page_height == 0.

Lemma scan_rects_ok (page_num : nat) (rects : list Rect) :
  forall report : ScanReport.t,
    exists report',
      scan_rects page_width page_height page_num rects report = Ok report'
      /\ ScanReport.pages report' = ScanReport.pages report.
Proof.
  induction rects as [| rect rects IH]; intros report; simpl.
  - exists report. split; reflexivity.
  - rewrite (scan_heuristic_ok _ _ rect width_ok height_ok). simpl.
    match goal with
    | |- context [scan_rects _ _ _ _ ?r] => destruct (IH r) as (report' & -> & Hpages)
    end.
    exists report'. split; [reflexivity |].
    rewrite Hpages. destruct (_ && _); reflexivity.
Qed.

Lemma scan_images_ok (page_num : nat) (page : Page) (images : list Image) :
  forall report : ScanReport.t,
    exists report',
      scan_images page_width page_height page_num page images report = Ok report'
      /\ ScanReport.pages report' = ScanReport.pages report.
Proof.
  induction images as [| img images IH]; intros report; simpl.
  - exists report. split; reflexivity.
  - destruct (scan_rects_ok page_num (get_image_rects page (xref img)) report)
      as (report1 & -> & Hpages1).
    simpl. destruct (IH report1) as (report' & -> & Hpages).
    exists report'. split; [reflexivity | congruence].
Qed.

End Scan.

Lemma scan_page_ok (page_num : nat) (page : Page) (report : ScanReport.t) :
  page_ok page = true ->
  exists report',
    scan_page page_num page report = Ok report'
    /\ ScanReport.pages report' = ScanReport.pages report.
Proof.
  intros Hok. unfold scan_page.
  match goal with
  | |- context [scan_images ?pw ?ph ?n ?pg ?imgs ?r] =>
      destruct (scan_images_ok pw ph (page_ok_width _ Hok) (page_ok_height _ Hok)
                  n pg imgs r) as (report' & -> & Hpages)
  end.
  exists report'. split; [reflexivity |].
  rewrite Hpages. destruct (has_watermark _); reflexivity.
Qed.

Lemma scan_pages_ok (doc : list Page) :
  forallb page_ok doc = true ->
  forall (page_num : nat) (report : ScanReport.t),
    exists report',
      scan_pages page_num doc report = Ok report'
      /\ ScanReport.pages report' = ScanReport.pages report.
Proof.
  induction doc as [| page doc IH]; intros Hok page_num report; simpl.
  - exists report. split; reflexivity.
  - apply andb_true_iff in Hok as [Hpage Hdoc].
    destruct (scan_page_ok page_num page report Hpage) as (report1 & -> & Hpages1).
    simpl. destruct (IH Hdoc (S page_num) report1) as (report' & -> & Hpages).
    exists report'. split; [reflexivity | congruence].
Qed.

(** C10. [scan_pdf] needs a first page: on a file without pages the
    access [doc[0]] raises [IndexError] and no report is returned, while
    on every file with at least one page it returns a report (for the
    number of pages of the file) and leaves the world as it is. *)
Theorem scan_pdf_needs_a_page (input_path : string) (w : World) (f : File) :
  fs w !! input_path = Some f ->
  forallb page_ok (file_pages f) = true ->
  match file_pages f with
  | [] => scan_pdf input_path w = (Raise IndexError, w)
  | _ :: _ =>
      exists report : ScanReport.t,
        scan_pdf input_path w = (Ok report, w)
        /\ ScanReport.pages report = length (file_pages f)
  end.
Proof.
  intros Hfile Hok. unfold scan_pdf, bind, fitz_open, lift. rewrite Hfile.
  destruct (scan_pages_ok _ Hok 0%nat
              (ScanReport.mk (length (file_pages f)) 0 false false [] []))
    as (report & -> & Hpages).
  destruct (file_pages f) as [| first_page doc]; [reflexivity |].
  simpl. eexists. split; [reflexivity |]. simpl. exact Hpages.
Qed.

Lemma scan_pdf_needs_a_page_witness :
  exists report : ScanReport.t,
    scan_pdf "b.pdf" Sample.world = (Ok report, Sample.world)
    /\ ScanReport.pages report = 1%nat.
Proof.
  apply (scan_pdf_needs_a_page "b.pdf" Sample.world (mkFile [Sample.stamp_page] 200000%N)).
  - reflexivity.
  - reflexivity.
Defined.

Example scan_pdf_empty :
  raised (scan_pdf "empty.pdf" Sample.world) = Some IndexError.
Proof. vm_compute. reflexivity. Qed.

Example scan_pdf_three_pages :
  ScanReport.pages <$> fst_ok (scan_pdf "c.pdf" Sample.world) = Some 3%nat.
Proof. vm_compute. reflexivity. Qed.

(** * Further properties of the code *)

(** * Further properties *)

(** ** Substrings *)

Lemma startswith_prefix (p s : PyStr.t) :
  PyStr.startswith p s = true <-> exists r, s = p ++ r.
Proof.
  revert s. induction p as [| a p IH]; intros s; simpl.
  - split; [intros _; exists s; reflexivity | reflexivity].
  - destruct s as [| b s]; simpl.
    + split; [discriminate | intros [r Hr]; discriminate Hr].
    + unfold PyStr.eqb_cp. rewrite andb_true_iff, N.eqb_eq, IH. split.
      * intros [-> [r ->]]. exists r. reflexivity.
      * intros [r Hr]. injection Hr as -> ->. split; [reflexivity | exists r; reflexivity].
Qed.

Lemma contains_infix (p s : PyStr.t) :
  PyStr.contains p s = true <-> exists a b, s = a ++ p ++ b.
Proof.
  induction s as [| c s IH]; simpl.
  - rewrite orb_false_r, startswith_prefix. split.
    + intros [r Hr]. exists [], r. exact Hr.
    + intros (a & b & H). destruct a as [| x a]; [| discriminate H].
      exists b. exact H.
  - rewrite orb_true_iff, startswith_prefix, IH. split.
    + intros [[r Hr] | (a & b & ->)].
      * exists [], r. exact Hr.
      * exists (c :: a), b. reflexivity.
    + intros (a & b & H). destruct a as [| x a].
      * left. exists b. exact H.
      * right. injection H as -> ->. exists a, b. reflexivity.
Qed.

Lemma contains_app (p s a b : PyStr.t) :
  PyStr.contains p s = true -> PyStr.contains p (a ++ s ++ b) = true.
Proof.
  rewrite !contains_infix. intros (a' & b' & ->).
  exists (a ++ a'), (b' ++ b). rewrite <- !app_assoc. reflexivity.
Qed.

Lemma contains_trans (p q s : PyStr.t) :
  PyStr.contains p q = true -> PyStr.contains q s = true -> PyStr.contains p s = true.
Proof.
  intros Hpq. rewrite (contains_infix q s). intros (a & b & ->).
  apply contains_app. exact Hpq.
Qed.

Lemma lower_app (s r : PyStr.t) : PyStr.lower (s ++ r) = PyStr.lower s ++ PyStr.lower r.
Proof. apply map_app. Qed.

(** ** The keyword matcher *)

(** X1. A page matches as soon as a matching phrase occurs anywhere in
    its text: text that matches still matches with any text before and
    after it. *)
Theorem has_watermark_anywhere (text before after : PyStr.t) :
  has_watermark text = true ->
  has_watermark (before ++ text ++ after) = true.
Proof.
  unfold has_watermark. rewrite !existsb_exists.
  intros (kw & Hkw & Hin). exists kw. split; [exact Hkw |].
  rewrite !lower_app. apply contains_app. exact Hin.
Qed.

Lemma has_watermark_anywhere_witness :
  has_watermark (PyStr.lit "Page 3 - " ++ Sample.camscanner_text ++ PyStr.lit " - 2024") = true.
Proof.
  apply (has_watermark_anywhere Sample.camscanner_text (PyStr.lit "Page 3 - ")
           (PyStr.lit " - 2024")).
  reflexivity.
Defined.

(** X2. The keywords ['CamScanner'] and ['Scanned with'] never decide a
    match: both contain ['scan'], so a text matches exactly when, in
    lower case, it contains one of the four Chinese fragments,
    ['created by'] or ['scan']. *)
Theorem has_watermark_deciding_keywords (text : PyStr.t) :
  has_watermark text
  = existsb (fun kw => PyStr.contains (PyStr.lower kw) (PyStr.lower text))
      deciding_keywords.
Proof.
  unfold has_watermark, deciding_keywords, zh_keywords, en_keywords.
  cbn [existsb app].
  set (t := PyStr.lower text).
  destruct (PyStr.contains (PyStr.lower (PyStr.lit "CamScanner")) t) eqn:Hcam.
  - rewrite (contains_trans (PyStr.lower (PyStr.lit "scan"))
               (PyStr.lower (PyStr.lit "CamScanner")) t eq_refl Hcam).
    rewrite !orb_true_r. reflexivity.
  - destruct (PyStr.contains (PyStr.lower (PyStr.lit "Scanned with")) t) eqn:Hwith.
    + rewrite (contains_trans (PyStr.lower (PyStr.lit "scan"))
                 (PyStr.lower (PyStr.lit "Scanned with")) t eq_refl Hwith).
      rewrite !orb_true_r. reflexivity.
    + reflexivity.
Qed.

(** ** The page redactor on arbitrary pages *)

Lemma overlay_app (rects rects' : list Rect) (page : Page) :
  overlay rects' (overlay rects page) = overlay (rects ++ rects') page.
Proof. unfold overlay. simpl. rewrite app_assoc. reflexivity. Qed.

Lemma redact_rects_overlay (page_width page_height : Q) (rects : list Rect) :
  forall (page page' : Page) (n n' : nat),
    redact_rects page_width page_height rects page n = Ok (page', n') ->
    exists drawn, page' = overlay drawn page /\ n' = (n + length drawn)%nat.
Proof.
  induction rects as [| rect rects IH]; intros page page' n n' Hrun; simpl in Hrun.
  - injection Hrun as <- <-. exists []. rewrite overlay_nil, Nat.add_0_r. split; reflexivity.
  - destruct (region_heuristic page_width page_height rect) as [[|] | e];
      simpl in Hrun; [| | discriminate Hrun].
    + apply IH in Hrun as (drawn & -> & ->).
      exists (rect :: drawn). rewrite draw_rect_single, overlay_app. simpl.
      split; [reflexivity | lia].
    + apply IH in Hrun. exact Hrun.
Qed.

Lemma redact_images_overlay (page_width page_height : Q) (images : list Image) :
  forall (page page' : Page) (n n' : nat),
    redact_images page_width page_height images page n = Ok (page', n') ->
    exists drawn, page' = overlay drawn page /\ n' = (n + length drawn)%nat.
Proof.
  induction images as [| img images IH]; intros page page' n n' Hrun; simpl in Hrun.
  - injection Hrun as <- <-. exists []. rewrite overlay_nil, Nat.add_0_r. split; reflexivity.
  - destruct (redact_rects _ _ _ _ _) as [[page1 n1] | e] eqn:Hrects;
      simpl in Hrun; [| discriminate Hrun].
    apply redact_rects_overlay in Hrects as (drawn1 & -> & ->).
    apply IH in Hrun as (drawn & -> & ->).
    exists (drawn1 ++ drawn). rewrite overlay_app, length_app.
    split; [reflexivity | lia].
Qed.

Lemma redact_page_overlay (remove_text remove_qr : bool) (page page' : Page) (n n' : nat) :
  redact_page remove_text remove_qr page n = Ok (page', n') ->
  exists drawn, page' = overlay drawn page.
Proof.
  unfold redact_page. intros Hrun.
  set (pw := width (page_rect page)) in *.
  set (ph := height (page_rect page)) in *.
  assert (Hstep1 : exists drawn1 n1,
             (if remove_text && has_watermark (page_text page)
              then (draw_rect (watermark_rect pw ph) page, S n)
              else (page, n)) = (overlay drawn1 page, n1)).
  { destruct (remove_text && has_watermark (page_text page)).
    - exists [watermark_rect pw ph], (S n). reflexivity.
    - exists [], n. rewrite overlay_nil. reflexivity. }
  destruct Hstep1 as (drawn1 & n1 & Hstep1). rewrite Hstep1 in Hrun.
  change (page_images (overlay drawn1 page)) with (page_images page) in Hrun.
  assert (Hstep2 : exists drawn2 n2,
             (if remove_qr
              then redact_images pw ph (page_images page) (overlay drawn1 page) n1
              else Ok (overlay drawn1 page, n1)) = Ok (overlay drawn2 page, n2)).
  { destruct remove_qr.
    - destruct (redact_images pw ph (page_images page) (overlay drawn1 page) n1)
        as [[page2 n2] | e] eqn:Himages; [| simpl in Hrun; discriminate Hrun].
      apply redact_images_overlay in Himages as (drawn & -> & ->).
      eexists _, _. rewrite overlay_app. reflexivity.
    - exists drawn1, n1. reflexivity. }
  destruct Hstep2 as (drawn2 & n2 & Hstep2). rewrite Hstep2 in Hrun.
  simpl in Hrun. injection Hrun as <- _.
  destruct (remove_text || remove_qr).
  - eexists. rewrite !draw_rect_single, !overlay_app. reflexivity.
  - exists drawn2. reflexivity.
Qed.

Lemma redact_pages_overlay (remove_text remove_qr : bool) (doc : list Page) :
  forall (doc' : list Page) (n n' : nat),
    redact_pages remove_text remove_qr doc n = Ok (doc', n') ->
    Forall2 (fun page page' => exists drawn, page' = overlay drawn page) doc doc'.
Proof.
  induction doc as [| page doc IH]; intros doc' n n' Hrun; simpl in Hrun.
  - injection Hrun as <- _. constructor.
  - destruct (redact_page _ _ page n) as [[page1 n1] | e] eqn:Hpage;
      simpl in Hrun; [| discriminate Hrun].
    destruct (redact_pages _ _ doc n1) as [[doc1 n2] | e] eqn:Hdoc;
      simpl in Hrun; [| discriminate Hrun].
    injection Hrun as <- _. constructor.
    + exact (redact_page_overlay _ _ _ _ _ _ Hpage).
    + exact (IH _ _ _ Hdoc).
Qed.

(** A path without a file: [fitz.open] raises, except for the empty path,
    where the new document has no page and [doc.save] raises. *)
Lemma remove_watermarks_missing (env : Env) (input_path : string)
    (remove_text remove_qr : bool) (w : World) :
  fs w !! input_path = None ->
  _remove_watermarks env input_path remove_text remove_qr w =
    (Raise (if bool_decide (input_path = "") then ValueError
            else FitzFileNotFoundError), w).
Proof.
  intros Hfile. unfold _remove_watermarks, bind, fitz_open, lift. rewrite Hfile.
  destruct (bool_decide (input_path = "")) eqn:Hempty; [| reflexivity].
  apply bool_decide_eq_true_1 in Hempty. subst input_path. reflexivity.
Qed.

(** X3. Whenever [_remove_watermarks] returns, the document it saved has
    the pages of the input document, page by page, with the same
    rectangle, text, images, placements and text blocks; the only change
    is that rectangles were drawn after the ones already there.  Text and
    images under a redaction stay in the file. *)
Theorem redaction_only_draws (env : Env) (input_path : string)
    (remove_text remove_qr : bool) (w w' : World) (output_path : string) :
  _remove_watermarks env input_path remove_text remove_qr w = (Ok output_path, w') ->
  exists f f' : File,
    fs w !! input_path = Some f
    /\ output_path = clean_path input_path
    /\ fs w' !! output_path = Some f'
    /\ Forall2
         (fun page page' =>
            same_content page page'
            /\ exists drawn, page_drawn page' = page_drawn page ++ drawn)
         (file_pages f) (file_pages f').
Proof.
  intros Hrun.
  destruct (fs w !! input_path) as [f |] eqn:Hfile;
    [| rewrite (remove_watermarks_missing _ _ _ _ _ Hfile) in Hrun; discriminate Hrun].
  unfold _remove_watermarks, bind, fitz_open, lift in Hrun. rewrite Hfile in Hrun.
  destruct (redact_pages remove_text remove_qr (file_pages f) 0)
    as [[doc n] | e] eqn:Hpages; [| discriminate Hrun].
  unfold fitz_save in Hrun. fold (clean_path input_path) in Hrun.
  destruct (bool_decide (clean_path input_path = input_path)); [discriminate Hrun |].
  destruct doc as [| page doc]; [discriminate Hrun |].
  simpl in Hrun. injection Hrun as <- <-.
  exists f, (mkFile (page :: doc) (save_size env (page :: doc))).
  split; [reflexivity |]. split; [reflexivity |].
  split; [apply lookup_insert_eq |].
  apply redact_pages_overlay in Hpages. simpl.
  eapply Forall2_impl; [exact Hpages |].
  intros p p' [drawn ->]. split.
  - repeat split.
  - exists drawn. reflexivity.
Qed.

Lemma redaction_only_draws_witness :
  exists f f' : File,
    fs Sample.world !! "b.pdf" = Some f
    /\ "b_clean.pdf" = clean_path "b.pdf"
    /\ fs (snd (_remove_watermarks (Sample.env_with None) "b.pdf" true true Sample.world))
         !! "b_clean.pdf" = Some f'
    /\ Forall2
         (fun page page' =>
            same_content page page'
            /\ exists drawn, page_drawn page' = page_drawn page ++ drawn)
         (file_pages f) (file_pages f').
Proof.
  apply (redaction_only_draws (Sample.env_with None) "b.pdf" true true Sample.world).
  apply (remove_watermarks_ok (Sample.env_with None) "b.pdf" true true Sample.world
           (mkFile [Sample.stamp_page] 200000%N)).
  - reflexivity.
  - vm_compute. discriminate.
  - reflexivity.
Defined.

(** X4. [_remove_watermarks] never changes its input file and never
    touches a file other than the one at the derived path, whether it
    returns or raises. *)
Theorem remove_watermarks_frame (env : Env) (input_path : string)
    (remove_text remove_qr : bool) (w : World) :
  let w' := snd (_remove_watermarks env input_path remove_text remove_qr w) in
  fs w' !! input_path = fs w !! input_path
  /\ forall path, path <> clean_path input_path -> fs w' !! path = fs w !! path.
Proof.
  destruct (fs w !! input_path) as [f |] eqn:Hfile;
    [| rewrite (remove_watermarks_missing _ _ _ _ _ Hfile); simpl;
       split; [exact Hfile | reflexivity]].
  unfold _remove_watermarks, bind, fitz_open, lift. rewrite Hfile.
  destruct (redact_pages remove_text remove_qr (file_pages f) 0) as [[doc n] | e];
    [| simpl; split; [exact Hfile | reflexivity]].
  unfold fitz_save. fold (clean_path input_path).
  destruct (bool_decide (clean_path input_path = input_path)) eqn:Hsame;
    [simpl; split; [exact Hfile | reflexivity] |].
  apply bool_decide_eq_false in Hsame.
  destruct doc as [| page doc]; [simpl; split; [exact Hfile | reflexivity] |].
  simpl. split.
  - rewrite lookup_insert_ne by exact Hsame. exact Hfile.
  - intros path Hpath.
    apply lookup_insert_ne. intros Heq. apply Hpath. symmetry. exact Heq.
Qed.

(** X5. [_remove_watermarks] saves nothing for a path that does not
    contain ['.pdf'] (the derived path would be the input path) and
    nothing for a document without pages: it raises [ValueError] and
    leaves the world as it is. *)
Theorem remove_watermarks_rejects (env : Env) (input_path : string)
    (remove_text remove_qr : bool) (w : World) (f : File) :
  fs w !! input_path = Some f ->
  forallb page_ok (file_pages f) = true ->
  mentions_pdf input_path = false \/ file_pages f = [] ->
  _remove_watermarks env input_path remove_text remove_qr w = (Raise ValueError, w).
Proof.
  intros Hfile Hok Hbad.
  unfold _remove_watermarks, bind, fitz_open, lift. rewrite Hfile.
  rewrite (redact_pages_ok _ _ _ _ Hok). simpl.
  unfold fitz_save. fold (clean_path input_path).
  destruct Hbad as [Hpath | Hempty].
  - rewrite bool_decide_eq_true_2
      by (apply replace_pdf_unmentioned; exact Hpath).
    reflexivity.
  - rewrite Hempty. simpl.
    destruct (bool_decide (clean_path input_path = input_path)); reflexivity.
Qed.

Lemma remove_watermarks_rejects_witness :
  _remove_watermarks (Sample.env_with None) "scan.PDF" true true More.world
  = (Raise ValueError, More.world).
Proof.
  apply (remove_watermarks_rejects (Sample.env_with None) "scan.PDF" true true
           More.world (mkFile [Sample.text_page] 5000%N)).
  - reflexivity.
  - reflexivity.
  - left. reflexivity.
Defined.

Lemma redact_pages_no_flags (doc : list Page) (n : nat) :
  redact_pages false false doc n = Ok (doc, n).
Proof.
  induction doc as [| page doc IH]; simpl; [reflexivity |].
  unfold redact_page. simpl. rewrite IH. reflexivity.
Qed.

(** X6. With both flags unset [_remove_watermarks] draws nothing, on any
    page (also one whose rectangle has no width): it saves a file with
    the pages of the input under the derived path and prints the count
    0. *)
Theorem remove_watermarks_no_flags (env : Env) (input_path : string)
    (w : World) (f : File) :
  fs w !! input_path = Some f ->
  clean_path input_path <> input_path ->
  file_pages f <> [] ->
  _remove_watermarks env input_path false false w =
    (Ok (clean_path input_path),
     {| fs := <[clean_path input_path :=
                  mkFile (file_pages f) (save_size env (file_pages f))]> (fs w);
        stdout := stdout w ++ [MsgRemoved 0] |}).
Proof.
  intros Hfile Hpath Hpages.
  unfold _remove_watermarks, bind, fitz_open, lift. rewrite Hfile.
  rewrite redact_pages_no_flags. simpl.
  unfold fitz_save. fold (clean_path input_path).
  rewrite bool_decide_eq_false_2 by exact Hpath.
  destruct (file_pages f) as [| page doc]; [contradiction |].
  reflexivity.
Qed.

Lemma remove_watermarks_no_flags_witness :
  _remove_watermarks (Sample.env_with None) "flat.pdf" false false More.world =
    (Ok (clean_path "flat.pdf"),
     {| fs := <[clean_path "flat.pdf" := mkFile [More.flat_page] 1234567%N]> (fs More.world);
        stdout := stdout More.world ++ [MsgRemoved 0] |}).
Proof.
  apply (remove_watermarks_no_flags (Sample.env_with None) "flat.pdf" More.world
           (mkFile [More.flat_page] 700%N)).
  - reflexivity.
  - vm_compute. discriminate.
  - discriminate.
Defined.

(** ** Redacting a redacted document *)

Lemma detected_overlay (remove_text remove_qr : bool) (drawn : list Rect) (page : Page) :
  detected remove_text remove_qr (overlay drawn page) = detected remove_text remove_qr page.
Proof. reflexivity. Qed.

Lemma safety_net_overlay (remove_text remove_qr : bool) (drawn : list Rect) (page : Page) :
  safety_net remove_text remove_qr (overlay drawn page) = safety_net remove_text remove_qr page.
Proof. reflexivity. Qed.

Lemma count_redactions_redacted (remove_text remove_qr rt rq : bool) (doc : list Page) :
  count_redactions remove_text remove_qr (redacted rt rq doc)
  = count_redactions remove_text remove_qr doc.
Proof.
  induction doc as [| page doc IH]; simpl; [reflexivity |].
  unfold redacted_page at 1. rewrite detected_overlay, IH. reflexivity.
Qed.

Lemma file_ok_clean_file (env : Env) (remove_text remove_qr : bool) (f : File) :
  file_ok (clean_file env remove_text remove_qr f) = file_ok f.
Proof.
  unfold file_ok, clean_file. simpl. rewrite length_redacted. f_equal.
  induction (file_pages f) as [| page doc IH]; simpl; [reflexivity |].
  rewrite IH. reflexivity.
Qed.

Lemma printed_counts_snoc (out : list Msg) (n : nat) :
  printed_counts (out ++ [MsgRemoved n]) = printed_counts out ++ [n].
Proof. unfold printed_counts. rewrite flat_map_app. reflexivity. Qed.

(** X7. Redaction does not hide a watermark from the redactor: run on
    its own output, [_remove_watermarks] detects what it detected the
    first time, prints the same count again and draws the same
    rectangles a second time over each page. *)
Theorem redacting_twice_repeats (env : Env) (input_path : string)
    (remove_text remove_qr : bool) (w : World) (f : File) :
  fs w !! input_path = Some f ->
  clean_path input_path <> input_path ->
  file_ok f = true ->
  let first := _remove_watermarks env input_path remove_text remove_qr w in
  let second :=
    _remove_watermarks env (clean_path input_path) remove_text remove_qr (snd first) in
  let count := count_redactions remove_text remove_qr (file_pages f) in
  fst second = Ok (clean_path (clean_path input_path))
  /\ printed_counts (stdout (snd second)) = printed_counts (stdout w) ++ [count; count]
  /\ exists f'' : File,
       fs (snd second) !! clean_path (clean_path input_path) = Some f''
       /\ Forall2
            (fun page page'' =>
               same_content page page''
               /\ page_drawn page'' =
                    page_drawn page
                    ++ drawn_by_pass remove_text remove_qr page
                    ++ drawn_by_pass remove_text remove_qr page)
            (file_pages f) (file_pages f'').
Proof.
  intros Hfile Hpath Hok first second count.
  assert (Hpath2 : clean_path (clean_path input_path) <> clean_path input_path).
  { intros Heq. apply Hpath. apply clean_path_inj. exact Heq. }
  subst second first.
  rewrite (remove_watermarks_ok env input_path remove_text remove_qr w f Hfile Hpath Hok).
  cbn [snd].
  rewrite (remove_watermarks_ok env (clean_path input_path) remove_text remove_qr _
             (clean_file env remove_text remove_qr f));
    [| apply lookup_insert_eq | exact Hpath2 | rewrite file_ok_clean_file; exact Hok].
  cbn [fst snd stdout fs].
  split; [reflexivity |]. split.
  - rewrite !printed_counts_snoc, <- app_assoc. simpl.
    unfold clean_file. cbn [file_pages].
    rewrite count_redactions_redacted. reflexivity.
  - eexists. split; [apply lookup_insert_eq |].
    unfold clean_file. cbn [file_pages]. unfold redacted.
    rewrite <- list_fmap_compose.
    apply Forall2_fmap_r, Forall_Forall2_diag, Forall_forall.
    intros page _. split; [repeat split |].
    simpl. unfold drawn_by_pass. rewrite <- !app_assoc. reflexivity.
Qed.

Lemma redacting_twice_repeats_witness :
  let first := _remove_watermarks (Sample.env_with None) "a.pdf" true true Sample.world in
  let second :=
    _remove_watermarks (Sample.env_with None) (clean_path "a.pdf") true true (snd first) in
  let count := count_redactions true true [Sample.text_page] in
  fst second = Ok (clean_path (clean_path "a.pdf"))
  /\ printed_counts (stdout (snd second))
     = printed_counts (stdout Sample.world) ++ [count; count]
  /\ exists f'' : File,
       fs (snd second) !! clean_path (clean_path "a.pdf") = Some f''
       /\ Forall2
            (fun page page'' =>
               same_content page page''
               /\ page_drawn page'' =
                    page_drawn page
                    ++ drawn_by_pass true true page ++ drawn_by_pass true true page)
            [Sample.text_page] (file_pages f'').
Proof.
  apply (redacting_twice_repeats (Sample.env_with None) "a.pdf" true true Sample.world
           (mkFile [Sample.text_page] 100000%N)).
  - reflexivity.
  - vm_compute. discriminate.
  - reflexivity.
Defined.

(** ** Merging *)

Lemma merge_loop_total (file_paths : list string) :
  forall (pdf_writer : list Page) (w : World),
    merge_loop file_paths pdf_writer w =
      (Ok (pdf_writer ++ existing_pages (fs w) file_paths),
       {| fs := fs w;
          stdout := stdout w ++ map MsgMerged (existing_paths (fs w) file_paths) |}).
Proof.
  unfold existing_pages, existing_paths.
  induction file_paths as [| path file_paths IH]; intros pdf_writer w; simpl.
  - rewrite !app_nil_r. destruct w. reflexivity.
  - unfold bind, os_path_exists, PdfReader, print.
    destruct (fs w !! path) as [f |] eqn:Hpath.
    + rewrite bool_decide_eq_true_2 by (exists f; reflexivity).
      rewrite filter_cons_True by (rewrite Hpath; exists f; reflexivity).
      simpl. rewrite Hpath. rewrite IH. simpl.
      rewrite <- !app_assoc. reflexivity.
    + rewrite bool_decide_eq_false_2 by (intros [f Hf]; discriminate Hf).
      rewrite filter_cons_False by (rewrite Hpath; intros [f Hf]; discriminate Hf).
      simpl. apply IH.
Qed.


Example merge_pdfs_with_missing_first :
  let run := _merge_pdfs (Sample.env_with None) ["gone.pdf"; "A.pdf"; "nope.pdf"; "B.pdf"]
               Sample.world in
  fst run = Ok "gone_merged.pdf"
  /\ (map page_text ∘ file_pages) <$> fs (snd run) !! "gone_merged.pdf"
     = Some (map PyStr.lit ["A1"; "A2"; "B1"; "B2"; "B3"])
  /\ stdout (snd run) = [MsgMerged "A.pdf"; MsgMerged "B.pdf"; MsgMergeDone 4].
Proof. repeat split; vm_compute; reflexivity. Qed.

(** X9. Merging composes: merging [a] and [b] and then merging the result
    with [c] gives a document with the same pages as merging [a], [b]
    and [c] at once, provided the first merge does not write over
    [c]. *)
Theorem merge_pdfs_in_two_steps (env : Env) (a b c : string) (w : World)
    (fa fb fc : File) :
  fs w !! a = Some fa ->
  fs w !! b = Some fb ->
  fs w !! c = Some fc ->
  merged_path_of a <> c ->
  let step1 := _merge_pdfs env [a; b] w in
  let step2 := _merge_pdfs env [merged_path_of a; c] (snd step1) in
  let once := _merge_pdfs env [a; b; c] w in
  file_pages <$> fs (snd step2) !! merged_path_of (merged_path_of a)
    = Some (file_pages fa ++ file_pages fb ++ file_pages fc)
  /\ file_pages <$> fs (snd once) !! merged_path_of a
    = Some (file_pages fa ++ file_pages fb ++ file_pages fc).
Proof.
  intros Ha Hb Hc Hfresh step1 step2 once. subst step2 step1 once.
  unfold _merge_pdfs, bind. rewrite !merge_loop_total.
  cbn [index0 lift ret pdf_write write_file print snd fs app]. split.
  - rewrite lookup_insert_eq. cbn [fmap option_fmap option_map file_pages].
    f_equal. unfold existing_pages. cbn [omap list_omap].
    rewrite lookup_insert_eq, lookup_insert_ne by exact Hfresh.
    rewrite Ha, Hb, Hc. simpl. rewrite !app_nil_r, <- app_assoc. reflexivity.
  - rewrite lookup_insert_eq. cbn [fmap option_fmap option_map file_pages].
    f_equal. unfold existing_pages. cbn [omap list_omap].
    rewrite Ha, Hb, Hc. simpl. rewrite !app_nil_r. reflexivity.
Qed.

Lemma merge_pdfs_in_two_steps_witness :
  let step1 := _merge_pdfs (Sample.env_with None) ["A.pdf"; "B.pdf"] Sample.world in
  let step2 :=
    _merge_pdfs (Sample.env_with None) [merged_path_of "A.pdf"; "c.pdf"] (snd step1) in
  let once := _merge_pdfs (Sample.env_with None) ["A.pdf"; "B.pdf"; "c.pdf"] Sample.world in
  file_pages <$> fs (snd step2) !! merged_path_of (merged_path_of "A.pdf")
    = Some (Sample.doc_A ++ Sample.doc_B
            ++ [Sample.blank_page; Sample.blank_page; Sample.blank_page])
  /\ file_pages <$> fs (snd once) !! merged_path_of "A.pdf"
    = Some (Sample.doc_A ++ Sample.doc_B
            ++ [Sample.blank_page; Sample.blank_page; Sample.blank_page]).
Proof.
  apply (merge_pdfs_in_two_steps (Sample.env_with None) "A.pdf" "B.pdf" "c.pdf"
           Sample.world (mkFile Sample.doc_A 20000%N) (mkFile Sample.doc_B 30000%N)
           (mkFile [Sample.blank_page; Sample.blank_page; Sample.blank_page] 300000%N)).
  - reflexivity.
  - reflexivity.
  - reflexivity.
  - vm_compute. discriminate.
Defined.

(** ** Compressing *)

(** X10. [_compress_pdf] on a path that contains ['.pdf'] never loses its
    input: whatever Ghostscript does, the input file is still there with
    its content, every path it returns names a file, and it never lets
    [CalledProcessError] escape. *)
Theorem compress_pdf_keeps_input (env : Env) (input_path : string) (w : World) (f : File) :
  mentions_pdf input_path = true ->
  fs w !! input_path = Some f ->
  let run := _compress_pdf env input_path w in
  fs (snd run) !! input_path = Some f
  /\ (forall path, fst run = Ok path -> is_Some (fs (snd run) !! path))
  /\ raised run <> Some CalledProcessError.
Proof.
  intros Hpdf Hfile.
  assert (Hfresh : compressed_path_of input_path <> input_path).
  { apply replace_pdf_changes; [discriminate | exact Hpdf]. }
  unfold _compress_pdf, try_except, bind, subprocess_run_gs, raised.
  fold (compressed_path_of input_path).
  destruct (gs env) as [tool |]; cbn [fst snd].
  - rewrite Hfile. cbn [mbind option_bind].
    destruct (tool f) as [out |]; cbn [fst snd fs write_file print ret exn_eqb].
    + split; [rewrite lookup_insert_ne by exact Hfresh; exact Hfile |].
      split; [| discriminate].
      intros path [= <-]. rewrite lookup_insert_eq. eexists. reflexivity.
    + split; [exact Hfile |]. split; [| discriminate].
      intros path [= <-]. rewrite Hfile. eexists. reflexivity.
  - split; [exact Hfile |]. split; [discriminate | discriminate].
Qed.

Lemma compress_pdf_keeps_input_witness :
  let run := _compress_pdf (Sample.env_with (Some Sample.gs_ok)) "c.pdf" Sample.world in
  fs (snd run) !! "c.pdf"
    = Some (mkFile [Sample.blank_page; Sample.blank_page; Sample.blank_page] 300000%N)
  /\ (forall path, fst run = Ok path -> is_Some (fs (snd run) !! path))
  /\ raised run <> Some CalledProcessError.
Proof.
  apply (compress_pdf_keeps_input (Sample.env_with (Some Sample.gs_ok)) "c.pdf"
           Sample.world).
  - reflexivity.
  - reflexivity.
Defined.

(** ** Derived paths do not collide *)

Lemma clean_path_not_pdf_first (s : string) :
  Path.startswith ".pdf" (clean_path s) = false.
Proof.
  destruct (Path.startswith ".pdf" (clean_path s)) eqn:E; [| reflexivity].
  apply prefix_pdf_inv in E as [t H].
  apply clean_path_copied in H as (s1 & -> & H & Hdot); [| discriminate].
  apply clean_path_copied in H as (s2 & -> & H & _); [| discriminate].
  apply clean_path_copied in H as (s3 & -> & H & _); [| discriminate].
  apply clean_path_copied in H as (s4 & -> & H & _); [| discriminate].
  discriminate Hdot.
Qed.

Lemma pdf_follows_clean_block (prev : ascii) (s : string) :
  pdf_follows "n" prev ("_clean.pdf" ++ s)%string = pdf_follows "n" "f" s.
Proof. reflexivity. Qed.

Lemma clean_path_pdf_follows (s : string) :
  forall prev : ascii, pdf_follows "n" prev (clean_path s) = true.
Proof.
  remember (String.length s) as n eqn:Hn. revert s Hn.
  induction n as [n IH] using lt_wf_ind. intros s Hn prev.
  destruct (path_cases s) as [-> | [[t ->] | (c & s' & -> & Hc)]].
  - reflexivity.
  - rewrite clean_path_match, pdf_follows_clean_block.
    apply (IH (String.length t)); [| reflexivity].
    subst n. cbv beta iota fix delta [String.append String.length]. lia.
  - pose proof (clean_path_not_pdf_first (String c s')) as Hfirst.
    rewrite (clean_path_copy _ _ Hc) in Hfirst |- *.
    cbn [pdf_follows]. rewrite Hfirst. cbn [andb].
    apply (IH (String.length s')); [| reflexivity].
    subst n. simpl. lia.
Qed.

Lemma replace_pdf_follows (new s : string) :
  (forall prev r, pdf_follows "n" prev (new ++ r)%string = false) ->
  mentions_pdf s = true ->
  forall prev, pdf_follows "n" prev (Path.replace ".pdf" new s) = false.
Proof.
  intros Hnew. induction s as [| c s IH]; intros H prev; [discriminate H |].
  destruct (Path.startswith ".pdf" (String c s)) eqn:Hc.
  - apply prefix_pdf_inv in Hc as [t ->].
    rewrite replace_pdf_match. apply Hnew.
  - cbn [mentions_pdf] in H. rewrite Hc in H. simpl in H.
    rewrite (replace_pdf_copy _ _ _ Hc).
    cbn [pdf_follows]. rewrite (IH H). apply andb_false_r.
Qed.

Lemma clean_path_mentions (path : string) :
  clean_path path <> path -> mentions_pdf (clean_path path) = true.
Proof.
  intros Hclean. apply replace_pdf_mentions; [reflexivity |].
  destruct (mentions_pdf path) eqn:E; [reflexivity |].
  exfalso. apply Hclean. apply replace_pdf_unmentioned. exact E.
Qed.

(** X11. The paths that the pipeline derives never collide: two different
    inputs have different intermediate paths, and for a first input that
    contains ['.pdf'] neither the merged path nor the compressed path is
    the intermediate path of any input, and the compressed path is not
    the merged path. *)
Theorem derived_paths_distinct (first : string) :
  clean_path first <> first ->
  let merged := merged_path_of (clean_path first) in
  (forall p q, p <> q -> clean_path p <> clean_path q)
  /\ (forall p, clean_path p <> merged)
  /\ (forall p, clean_path p <> compressed_path_of merged)
  /\ compressed_path_of merged <> merged.
Proof.
  intros Hfirst merged.
  pose proof (clean_path_mentions first Hfirst) as Hclean.
  assert (Hmerged : mentions_pdf merged = true).
  { apply replace_pdf_mentions; [reflexivity | exact Hclean]. }
  split; [| split; [| split]].
  - intros p q Hpq Heq. apply Hpq. apply clean_path_inj. exact Heq.
  - intros p Heq.
    pose proof (clean_path_pdf_follows p "x") as Hp. rewrite Heq in Hp.
    unfold merged, merged_path_of in Hp.
    rewrite replace_pdf_follows in Hp; [discriminate Hp | | exact Hclean].
    intros prev r. reflexivity.
  - intros p Heq.
    pose proof (clean_path_pdf_follows p "x") as Hp. rewrite Heq in Hp.
    unfold compressed_path_of in Hp.
    rewrite replace_pdf_follows in Hp; [discriminate Hp | | exact Hmerged].
    intros prev r. reflexivity.
  - apply compressed_path_fresh. exact Hfirst.
Qed.

Lemma derived_paths_distinct_witness :
  let merged := merged_path_of (clean_path "up/a.pdf") in
  (forall p q, p <> q -> clean_path p <> clean_path q)
  /\ (forall p, clean_path p <> merged)
  /\ (forall p, clean_path p <> compressed_path_of merged)
  /\ compressed_path_of merged <> merged.
Proof.
  apply (derived_paths_distinct "up/a.pdf"). vm_compute. discriminate.
Defined.

(** ** The pipeline: what every call does *)

(** X12. [process] on an empty list of paths raises [IndexError],
    whatever the flags are, and leaves the world as it is. *)
Theorem process_empty_list (env : Env) (remove_text remove_qr merge compress : bool)
    (w : World) :
  process env [] remove_text remove_qr merge compress w = (Raise IndexError, w).
Proof. destruct merge, w; reflexivity. Qed.

Lemma process_loop_early_return (env : Env) (len : nat) (remove_text remove_qr : bool)
    (total_watermarks total_pages : nat) (filepath : string) (rest : list string)
    (processed_pdfs : list string) (w w' : World) r :
  process_loop env len remove_text remove_qr false total_watermarks 0
    (filepath :: rest) total_pages processed_pdfs w = (Ok r, w') ->
  exists (out : string) (stats : Stats.t) (f : File),
    r = inl (out, stats)
    /\ Stats.files stats = len
    /\ Stats.watermarks stats = total_watermarks
    /\ fs w' !! out = Some f
    /\ Stats.size_mb stats = megabytes (file_size f).
Proof.
  simpl. unfold bind at 1. unfold print at 1. unfold bind at 1.
  destruct (_remove_watermarks _ _ _ _ _) as [[out | e] w1]; [| discriminate].
  unfold bind at 1.
  destruct (fitz_open out w1) as [[doc | e] w2]; [| discriminate].
  unfold bind, os_path_getsize.
  destruct (fs w2 !! out) as [f |] eqn:Hout; [| discriminate].
  unfold ret. intros [= <- <-].
  eexists _, _, f. repeat split. exact Hout.
Qed.

(** The output of a returning call with [merge] set: the returned path
    names a file, and [size_mb] is the rounded size of that file. *)
Lemma process_merge_returns (env : Env) (file_paths : list string)
    (remove_text remove_qr compress : bool) (w w' : World)
    (out : string) (stats : Stats.t) :
  process env file_paths remove_text remove_qr true compress w = (Ok (out, stats), w') ->
  Stats.files stats = length file_paths
  /\ Stats.watermarks stats = 0%nat
  /\ exists f : File,
       fs w' !! out = Some f
       /\ Stats.size_mb stats = Float.round2 (megabytes (file_size f)).
Proof.
  unfold process. unfold bind at 1.
  destruct (process_loop _ _ _ _ _ _ _ _ _ _ _) as [[r | e] w1] eqn:Hloop;
    [| discriminate].
  apply process_loop_merge_shape in Hloop as (total_pages & processed_pdfs & -> & _).
  unfold bind at 1.
  match goal with
  | |- (let (r, w') := ?stage in _) = _ -> _ =>
      destruct stage as [[final_path | e] w2]; [| discriminate]
  end.
  unfold bind, os_path_getsize.
  destruct (fs w2 !! final_path) as [f |] eqn:Hfinal; [| discriminate].
  unfold ret. intros [= <- <- <-].
  split; [reflexivity |]. split; [reflexivity |].
  exists f. split; [exact Hfinal | reflexivity].
Qed.

(** X13. Whenever [process] returns, the returned path names a file, the
    returned [files] is the number of paths it was given, the returned
    [watermarks] is 0 (whatever the redactor counted), and [size_mb] is
    the size of the returned file in units of 1024 * 1024 bytes, rounded
    to two decimals when [merge] is set and not rounded when it is
    not. *)
Theorem process_returned_stats (env : Env) (file_paths : list string)
    (remove_text remove_qr merge compress : bool) (w w' : World)
    (out : string) (stats : Stats.t) :
  process env file_paths remove_text remove_qr merge compress w = (Ok (out, stats), w') ->
  Stats.files stats = length file_paths
  /\ Stats.watermarks stats = 0%nat
  /\ exists f : File,
       fs w' !! out = Some f
       /\ Stats.size_mb stats =
            if merge then Float.round2 (megabytes (file_size f))
            else megabytes (file_size f).
Proof.
  destruct merge; [apply process_merge_returns |].
  destruct file_paths as [| filepath rest].
  - intros Hrun. destruct w. discriminate Hrun.
  - unfold process. unfold bind at 1.
    destruct (process_loop _ _ _ _ _ _ _ _ _ _ _) as [[r | e] w1] eqn:Hloop;
      [| discriminate].
    apply process_loop_early_return in Hloop
      as (out1 & stats1 & f & -> & Hfiles & Hmarks & Hout & Hsize).
    unfold ret. intros [= <- <- <-].
    split; [exact Hfiles |]. split; [exact Hmarks |].
    exists f. split; assumption.
Qed.

Lemma process_returned_stats_witness :
  Stats.files
    {| Stats.pages := 5; Stats.files := 2; Stats.watermarks := 0;
       Stats.size_mb := Float.round2 (megabytes 2000000) |} = 2%nat
  /\ Stats.watermarks
       {| Stats.pages := 5; Stats.files := 2; Stats.watermarks := 0;
          Stats.size_mb := Float.round2 (megabytes 2000000) |} = 0%nat
  /\ exists f : File,
       fs (snd (process (Sample.env_with None) ["A.pdf"; "B.pdf"] true true true false
                  Sample.world)) !! "A_clean_merged.pdf" = Some f
       /\ Float.round2 (megabytes 2000000) = Float.round2 (megabytes (file_size f)).
Proof.
  apply (process_returned_stats (Sample.env_with None) ["A.pdf"; "B.pdf"]
           true true true false Sample.world).
  vm_compute. reflexivity.
Defined.

Lemma remove_watermarks_env (env env' : Env) :
  save_size env = save_size env' ->
  _remove_watermarks env = _remove_watermarks env'.
Proof.
  destruct env as [save write tool], env' as [save' write' tool']. simpl.
  intros ->. reflexivity.
Qed.

(** X14. With [merge] unset [process] looks at nothing but the first
    path: the [compress] flag, Ghostscript and the other paths of the
    list (beyond their number) make no difference, whether the call
    returns or raises. *)
Theorem process_without_merge_ignores (env env' : Env) (filepath : string)
    (rest rest' : list string) (remove_text remove_qr compress compress' : bool)
    (w : World) :
  save_size env = save_size env' ->
  length rest = length rest' ->
  process env (filepath :: rest) remove_text remove_qr false compress w
  = process env' (filepath :: rest') remove_text remove_qr false compress' w.
Proof.
  intros Henv Hlen. unfold process. simpl process_loop.
  rewrite (remove_watermarks_env env env' Henv), Hlen.
  unfold bind.
  destruct (print _ w) as [[[] | e] w0]; [| reflexivity].
  destruct (_remove_watermarks _ _ _ _ _) as [[out | e] w1]; [| reflexivity].
  destruct (fitz_open out w1) as [[doc | e] w2]; [| reflexivity].
  destruct (os_path_getsize out w2) as [[size | e] w3]; reflexivity.
Qed.

Lemma process_without_merge_ignores_witness :
  process (Sample.env_with None) ["a.pdf"; "b.pdf"; "c.pdf"] true true false false
    Sample.world
  = process (Sample.env_with (Some Sample.gs_ok)) ["a.pdf"; "gone.pdf"; "scan.PDF"]
      true true false true Sample.world.
Proof.
  apply (process_without_merge_ignores (Sample.env_with None)
           (Sample.env_with (Some Sample.gs_ok)) "a.pdf" ["b.pdf"; "c.pdf"]
           ["gone.pdf"; "scan.PDF"] true true false true Sample.world).
  - reflexivity.
  - reflexivity.
Defined.

(** X15. A single file with [merge] set is redacted and returned as it
    is: [process] returns the derived path of the file with the number of
    its pages and the rounded size of the redacted copy, writes that copy
    and nothing else, and prints the two lines of the file. *)
Theorem process_single_file (env : Env) (filepath : string)
    (remove_text remove_qr compress : bool) (w : World) (f : File) :
  fs w !! filepath = Some f ->
  clean_path filepath <> filepath ->
  file_ok f = true ->
  process env [filepath] remove_text remove_qr true compress w =
    (Ok (clean_path filepath,
         {| Stats.pages := length (file_pages f);
            Stats.files := 1;
            Stats.watermarks := 0;
            Stats.size_mb :=
              Float.round2
                (megabytes (save_size env (redacted remove_text remove_qr (file_pages f)))) |}),
     {| fs := <[clean_path filepath := clean_file env remove_text remove_qr f]> (fs w);
        stdout := stdout w
                  ++ [MsgProcessing 1 1 filepath;
                      MsgRemoved (count_redactions remove_text remove_qr (file_pages f))] |}).
Proof.
  intros Hfile Hpath Hok.
  unfold process. simpl process_loop.
  unfold bind at 1. unfold bind at 1. unfold print at 1.
  unfold bind at 1.
  rewrite (remove_watermarks_ok _ _ _ _ _ f); [| exact Hfile | exact Hpath | exact Hok].
  unfold bind at 1. unfold fitz_open at 1. simpl.
  rewrite lookup_insert_eq. simpl.
  unfold bind, os_path_getsize. simpl.
  rewrite lookup_insert_eq. simpl. unfold ret.
  rewrite <- app_assoc, length_redacted. reflexivity.
Qed.

Lemma process_single_file_witness :
  process (Sample.env_with (Some Sample.gs_ok)) ["c.pdf"] true true true true Sample.world =
    (Ok (clean_path "c.pdf",
         {| Stats.pages := 3;
            Stats.files := 1;
            Stats.watermarks := 0;
            Stats.size_mb := Float.round2 (megabytes 1234567) |}),
     {| fs := <[clean_path "c.pdf" :=
                  clean_file (Sample.env_with (Some Sample.gs_ok)) true true
                    (mkFile [Sample.blank_page; Sample.blank_page; Sample.blank_page]
                       300000%N)]> (fs Sample.world);
        stdout := stdout Sample.world
                  ++ [MsgProcessing 1 1 "c.pdf"; MsgRemoved 0] |}).
Proof.
  apply (process_single_file (Sample.env_with (Some Sample.gs_ok)) "c.pdf" true true true
           Sample.world
           (mkFile [Sample.blank_page; Sample.blank_page; Sample.blank_page] 300000%N)).
  - reflexivity.
  - vm_compute. discriminate.
  - reflexivity.
Defined.

(** ** The pipeline: files left behind and files removed *)

Lemma process_loop_app (env : Env) (len : nat) (remove_text remove_qr merge : bool)
    (total_watermarks : nat) (done : list string) :
  forall (todo : list string) (i total_pages : nat) (processed_pdfs : list string)
         (w : World),
    process_loop env len remove_text remove_qr merge total_watermarks i
      (done ++ todo) total_pages processed_pdfs w =
    match process_loop env len remove_text remove_qr merge total_watermarks i
            done total_pages processed_pdfs w with
    | (Ok (inr (total_pages', processed_pdfs')), w1) =>
        process_loop env len remove_text remove_qr merge total_watermarks
          (i + length done) todo total_pages' processed_pdfs' w1
    | (Ok (inl returned), w1) => (Ok (inl returned), w1)
    | (Raise e, w1) => (Raise e, w1)
    end.
Proof.
  induction done as [| filepath done IH]; intros todo i total_pages processed_pdfs w.
  - simpl. rewrite Nat.add_0_r. reflexivity.
  - cbn [process_loop app]. unfold bind, print.
    destruct (_remove_watermarks _ _ _ _ _) as [[out | e] w1]; [| reflexivity].
    destruct (fitz_open out w1) as [[doc | e] w2]; [| reflexivity].
    destruct (negb merge && (i =? 0)%nat).
    + destruct (os_path_getsize out w2) as [[size | e] w3]; reflexivity.
    + rewrite IH. cbn [length].
      replace (S i + length done)%nat with (i + S (length done))%nat by lia.
      reflexivity.
Qed.

Lemma lookup_save_all_other (env : Env) (remove_text remove_qr : bool)
    (inputs : list (string * File)) :
  forall (files : gmap string File) (key : string),
    (forall path f, (path, f) ∈ inputs -> clean_path path <> key) ->
    save_all env remove_text remove_qr inputs files !! key = files !! key.
Proof.
  induction inputs as [| [path0 f0] inputs IH]; intros files key Hfresh; simpl.
  - reflexivity.
  - rewrite IH.
    + apply lookup_insert_ne. apply (Hfresh path0 f0). apply list_elem_of_here.
    + intros path f Hin. apply (Hfresh path f). apply list_elem_of_further. exact Hin.
Qed.

(** X16. [process] does not clean up when it fails.  Let, with [merge]
    set, the paths before some path name well-formed files, none of them
    being the intermediate path of one of them, and let that path name
    no file and be the intermediate path of none of them.  Then the call
    raises: the error of [fitz.open], or, for the empty path, which
    [fitz.open] takes for a new document, the [ValueError] of
    [doc.save].  The redacted copies of the files before it stay on
    disk, next to the inputs, which are as they were. *)
Theorem process_failure_leaves_intermediates (env : Env)
    (before : list string) (files : list File) (missing : string) (after : list string)
    (remove_text remove_qr compress : bool) (w : World) :
  Forall2 (fun path f => fs w !! path = Some f /\ file_ok f = true) before files ->
  (forall p q, p ∈ before -> q ∈ before -> clean_path p <> q) ->
  fs w !! missing = None ->
  (forall p, p ∈ before -> clean_path p <> missing) ->
  exists w' : World,
    process env (before ++ missing :: after) remove_text remove_qr true compress w
      = (Raise (if bool_decide (missing = "") then ValueError
                else FitzFileNotFoundError), w')
    /\ Forall2 (fun path f => fs w' !! path = Some f
                              /\ fs w' !! clean_path path
                                 = Some (clean_file env remove_text remove_qr f))
               before files
    /\ fs w' !! missing = None.
Proof.
  intros Hinputs Hfresh Hmissing Hnot.
  assert (Hok : Forall2 (fun (path : string) f => file_ok f = true) before files).
  { eapply Forall2_impl; [exact Hinputs |]. intros ? ? [_ H]. exact H. }
  assert (Hfiles : Forall2 (fun path f => fs w !! path = Some f) before files).
  { eapply Forall2_impl; [exact Hinputs |]. intros ? ? [H _]. exact H. }
  assert (Hother : forall key,
             (forall p, p ∈ before -> clean_path p <> key) ->
             save_all env remove_text remove_qr (zip before files) (fs w) !! key
             = fs w !! key).
  { intros key Hkey. apply lookup_save_all_other.
    intros path f Hin. apply Hkey. apply elem_of_zip_l in Hin. exact Hin. }
  unfold process. unfold bind at 1.
  rewrite process_loop_app.
  rewrite (process_loop_merge env remove_text remove_qr _ _ _ _ Hok _ _ _ _ Hfiles Hfresh).
  simpl process_loop.
  unfold bind at 1. unfold print at 1. unfold bind at 1.
  rewrite remove_watermarks_missing
    by (cbn [fs]; rewrite (Hother missing Hnot); exact Hmissing).
  eexists. split; [reflexivity |]. cbn [fs]. split.
  - eapply Forall2_zip_impl; [exact Hfiles |]. intros path f Hin. split.
    + rewrite Hother.
      * exact (Forall2_zip_elem _ _ _ Hfiles _ _ Hin).
      * intros p Hp. apply Hfresh; [exact Hp |].
        apply elem_of_zip_l in Hin. exact Hin.
    + apply (lookup_save_all env remove_text remove_qr).
      * intros path' f' Hin' Hsame. apply clean_path_inj in Hsame.
        pose proof (Forall2_zip_elem _ _ _ Hfiles _ _ Hin) as H1.
        pose proof (Forall2_zip_elem _ _ _ Hfiles _ _ Hin') as H2.
        simpl in H1, H2. f_equal. congruence.
      * right. exists path, f. split; [exact Hin | reflexivity].
  - rewrite (Hother missing Hnot). exact Hmissing.
Qed.

Lemma process_failure_leaves_intermediates_witness :
  exists w' : World,
    process (Sample.env_with None) (["a.pdf"] ++ "gone.pdf" :: ["b.pdf"]) true true true true
      Sample.world = (Raise FitzFileNotFoundError, w')
    /\ Forall2 (fun path f => fs w' !! path = Some f
                              /\ fs w' !! clean_path path
                                 = Some (clean_file (Sample.env_with None) true true f))
               ["a.pdf"] [mkFile [Sample.text_page] 100000%N]
    /\ fs w' !! "gone.pdf" = None.
Proof.
  apply (process_failure_leaves_intermediates (Sample.env_with None) ["a.pdf"]
           [mkFile [Sample.text_page] 100000%N] "gone.pdf" ["b.pdf"] true true true
           Sample.world).
  - repeat constructor.
  - intros p q Hp Hq.
    apply elem_of_cons in Hp as [-> | Hp]; [| apply elem_of_nil in Hp; contradiction].
    apply elem_of_cons in Hq as [-> | Hq]; [| apply elem_of_nil in Hq; contradiction].
    vm_compute. discriminate.
  - reflexivity.
  - intros p Hp.
    apply elem_of_cons in Hp as [-> | Hp]; [| apply elem_of_nil in Hp; contradiction].
    vm_compute. discriminate.
Defined.

(** The same call with the empty path in place of the missing one. *)
Example process_empty_path :
  fst (process (Sample.env_with None) ["a.pdf"; ""; "b.pdf"] true true true true
         Sample.world) = Raise ValueError
  /\ fst (process (Sample.env_with None) [""] true true true true Sample.world)
     = Raise ValueError
  /\ fst (scan_pdf "" Sample.world) = Raise IndexError.
Proof. repeat split; vm_compute; reflexivity. Qed.

Lemma without_temporaries_removed (merged_path : string) (processed_pdfs : list string) :
  forall (files : gmap string File) (key : string),
    key ∈ processed_pdfs -> key <> merged_path ->
    without_temporaries processed_pdfs merged_path files !! key = None.
Proof.
  assert (Hgone : forall ps files key,
             files !! key = None ->
             without_temporaries ps merged_path files !! key = None).
  { induction ps as [| fp ps IH]; intros files key Hnone; simpl; [exact Hnone |].
    apply IH.
    destruct (bool_decide (is_Some (files !! fp)) && negb (bool_decide (fp = merged_path)));
      [| exact Hnone].
    destruct (decide (fp = key)) as [-> | Hne].
    - apply lookup_delete_eq.
    - rewrite lookup_delete_ne by exact Hne. exact Hnone. }
  induction processed_pdfs as [| fp processed_pdfs IH]; intros files key Hin Hkey.
  - apply elem_of_nil in Hin. contradiction.
  - simpl. destruct (decide (fp = key)) as [-> | Hne].
    + apply Hgone.
      rewrite (bool_decide_eq_false_2 (key = merged_path)) by exact Hkey.
      rewrite andb_true_r.
      destruct (bool_decide (is_Some (files !! key))) eqn:E.
      * apply lookup_delete_eq.
      * apply bool_decide_eq_false in E.
        destruct (files !! key) eqn:Hk; [| reflexivity].
        exfalso. apply E. eexists. reflexivity.
    + apply IH; [| exact Hkey].
      apply elem_of_cons in Hin as [-> | Hin]; [contradiction | exact Hin].
Qed.

Lemma without_temporaries_other (merged_path : string) (processed_pdfs : list string) :
  forall (files : gmap string File) (key : string),
    key ∉ processed_pdfs ->
    without_temporaries processed_pdfs merged_path files !! key = files !! key.
Proof.
  induction processed_pdfs as [| fp processed_pdfs IH]; intros files key Hnot; simpl.
  - reflexivity.
  - apply not_elem_of_cons in Hnot as [Hne Hnot].
    rewrite (IH _ _ Hnot).
    destruct (bool_decide (is_Some (files !! fp)) && negb (bool_decide (fp = merged_path)));
      [| reflexivity].
    apply lookup_delete_ne. intros Heq. apply Hne. symmetry. exact Heq.
Qed.

(** The world that [process] leaves after a merge without compression. *)
Lemma process_merge_result (env : Env) (first second : string) (rest : list string)
    (files : list File) (remove_text remove_qr : bool) (w : World) :
  let file_paths := first :: second :: rest in
  Forall2 (fun path f => fs w !! path = Some f /\ file_ok f = true) file_paths files ->
  (forall p q, p ∈ file_paths -> q ∈ file_paths -> clean_path p <> q) ->
  let docs := map (fun f => redacted remove_text remove_qr (file_pages f)) files in
  let merged_path := merged_path_of (clean_path first) in
  exists (stats : Stats.t) (out : list Msg),
    process env file_paths remove_text remove_qr true false w =
      (Ok (merged_path, stats),
       {| fs := without_temporaries (map clean_path file_paths) merged_path
                  (<[merged_path := mkFile (concat docs) (write_size env (concat docs))]>
                     (save_all env remove_text remove_qr (zip file_paths files) (fs w)));
          stdout := out |}).
Proof.
  intros file_paths Hinputs Hfresh docs merged_path.
  assert (Hok : Forall2 (fun (path : string) f => file_ok f = true) file_paths files).
  { eapply Forall2_impl; [exact Hinputs |]. intros ? ? [_ H]. exact H. }
  assert (Hfiles : Forall2 (fun path f => fs w !! path = Some f) file_paths files).
  { eapply Forall2_impl; [exact Hinputs |]. intros ? ? [H _]. exact H. }
  pose proof (save_all_lookup env remove_text remove_qr _ _ _ Hfiles) as Hsaved.
  fold docs in Hsaved.
  unfold process. unfold bind at 1.
  rewrite (process_loop_merge env remove_text remove_qr _ _ _ _ Hok _ _ _ _ Hfiles Hfresh).
  cbn [app Nat.add]. subst file_paths.
  set (w1 := {| fs := save_all env remove_text remove_qr
                        (zip (first :: second :: rest) files) (fs w);
                stdout := _ |}).
  change (true && (1 <? length (map clean_path (first :: second :: rest)))%nat) with true.
  cbv iota.
  unfold bind at 1. unfold bind at 1.
  change (map clean_path (first :: second :: rest))
    with (clean_path first :: map clean_path (second :: rest)) in *.
  rewrite (merge_pdfs_ok env _ _ docs w1 Hsaved).
  unfold bind at 1. rewrite remove_temporaries_ok.
  unfold ret at 1. unfold bind at 1. unfold os_path_getsize at 1.
  cbn [fs stdout].
  rewrite without_temporaries_lookup, lookup_insert_eq.
  unfold ret. eexists _, _. reflexivity.
Qed.

(** X17. After a merge without compression the intermediate files are
    gone and the inputs are as they were: for more than one input file,
    none of which is the intermediate file of an input or the merged file,
    [process] returns the merged path, no derived path of an input names
    a file any more, every input still has its content, and no other file
    was touched. *)
Theorem process_merge_cleans_up (env : Env) (first second : string) (rest : list string)
    (files : list File) (remove_text remove_qr : bool) (w : World) :
  let file_paths := first :: second :: rest in
  let merged_path := merged_path_of (clean_path first) in
  Forall2 (fun path f => fs w !! path = Some f /\ file_ok f = true) file_paths files ->
  (forall p q, p ∈ file_paths -> q ∈ file_paths -> clean_path p <> q) ->
  merged_path ∉ file_paths ->
  exists (stats : Stats.t) (w' : World),
    process env file_paths remove_text remove_qr true false w
      = (Ok (merged_path, stats), w')
    /\ Forall (fun path => fs w' !! clean_path path = None) file_paths
    /\ Forall2 (fun path f => fs w' !! path = Some f) file_paths files
    /\ (forall key, key <> merged_path -> key ∉ map clean_path file_paths ->
                    fs w' !! key = fs w !! key).
Proof.
  intros file_paths merged_path Hinputs Hfresh Hmerged.
  destruct (process_merge_result env first second rest files remove_text remove_qr w
              Hinputs Hfresh) as (stats & out & Hrun).
  fold file_paths merged_path in Hrun.
  assert (Hfirst : clean_path first <> first).
  { apply Hfresh; apply list_elem_of_here. }
  assert (Hdistinct : forall p, clean_path p <> merged_path).
  { intros p Heq.
    pose proof (clean_path_pdf_follows p "x") as Hp. rewrite Heq in Hp.
    unfold merged_path, merged_path_of in Hp.
    rewrite replace_pdf_follows in Hp;
      [discriminate Hp | | apply clean_path_mentions; exact Hfirst].
    intros prev r. reflexivity. }
  assert (Hother : forall key,
             key <> merged_path -> key ∉ map clean_path file_paths ->
             without_temporaries (map clean_path file_paths) merged_path
               (<[merged_path :=
                    mkFile (concat (map (fun f => redacted remove_text remove_qr (file_pages f))
                                        files))
                      (write_size env
                         (concat (map (fun f => redacted remove_text remove_qr (file_pages f))
                                      files)))]>
                  (save_all env remove_text remove_qr (zip file_paths files) (fs w)))
               !! key = fs w !! key).
  { intros key Hkey Hnot.
    rewrite without_temporaries_other by exact Hnot.
    rewrite lookup_insert_ne by (intros Heq; apply Hkey; symmetry; exact Heq).
    apply lookup_save_all_other. intros path f Hin Heq. apply Hnot.
    rewrite <- Heq. apply list_elem_of_fmap. exists path. split; [reflexivity |].
    apply elem_of_zip_l in Hin. exact Hin. }
  eexists _, _. split; [exact Hrun |]. cbn [fs]. split; [| split].
  - apply Forall_forall. intros path Hpath.
    apply without_temporaries_removed; [| apply Hdistinct].
    apply list_elem_of_fmap. exists path. split; [reflexivity | exact Hpath].
  - assert (Hfiles : Forall2 (fun path f => fs w !! path = Some f) file_paths files).
    { eapply Forall2_impl; [exact Hinputs |]. intros ? ? [H _]. exact H. }
    eapply Forall2_zip_impl; [exact Hfiles |]. intros path f Hin.
    rewrite Hother.
    + exact (Forall2_zip_elem _ _ _ Hfiles _ _ Hin).
    + intros Heq. apply Hmerged. rewrite <- Heq.
      apply elem_of_zip_l in Hin. exact Hin.
    + intros Hclean. apply list_elem_of_fmap in Hclean as (p & Heq & Hp).
      apply (Hfresh p path Hp); [| symmetry; exact Heq].
      apply elem_of_zip_l in Hin. exact Hin.
  - exact Hother.
Qed.

Lemma process_merge_cleans_up_witness :
  exists (stats : Stats.t) (w' : World),
    process (Sample.env_with None) ["A.pdf"; "B.pdf"] true true true false Sample.world
      = (Ok (merged_path_of (clean_path "A.pdf"), stats), w')
    /\ Forall (fun path => fs w' !! clean_path path = None) ["A.pdf"; "B.pdf"]
    /\ Forall2 (fun path f => fs w' !! path = Some f) ["A.pdf"; "B.pdf"]
         [mkFile Sample.doc_A 20000%N; mkFile Sample.doc_B 30000%N]
    /\ (forall key, key <> merged_path_of (clean_path "A.pdf") ->
                    key ∉ map clean_path ["A.pdf"; "B.pdf"] ->
                    fs w' !! key = fs Sample.world !! key).
Proof.
  apply (process_merge_cleans_up (Sample.env_with None) "A.pdf" "B.pdf" []
           [mkFile Sample.doc_A 20000%N; mkFile Sample.doc_B 30000%N]
           true true Sample.world).
  - repeat constructor.
  - intros p q Hp Hq.
    repeat (apply elem_of_cons in Hp as [-> | Hp]);
      try (apply elem_of_nil in Hp; contradiction);
      repeat (apply elem_of_cons in Hq as [-> | Hq]);
      try (apply elem_of_nil in Hq; contradiction);
      vm_compute; discriminate.
  - intros Hin.
    repeat (apply elem_of_cons in Hin as [Heq | Hin]; [vm_compute in Heq; discriminate Heq |]).
    apply elem_of_nil in Hin. contradiction.
Defined.

(** ** The scan reporter in closed form *)

Lemma nonempty_app {A : Type} (l k : list A) : nonempty (l ++ k) = nonempty l || nonempty k.
Proof. destruct l; reflexivity. Qed.

Lemma scanned_nil (page_num : nat) (report : ScanReport.t) :
  scanned page_num [] report = report.
Proof.
  destruct report. unfold scanned. simpl.
  rewrite Nat.add_0_r, !orb_false_r, app_nil_r. reflexivity.
Qed.

Lemma is_suspicious_rect_ok (page_width page_height : Q) (rect : Rect) :
  ~ page_width == 0 -> ~ page_height == 0 ->
  scan_heuristic page_width page_height rect
  = Ok (is_suspicious_rect page_width page_height rect).
Proof.
  intros Hw Hh. unfold is_suspicious_rect.
  rewrite (scan_heuristic_ok _ _ _ Hw Hh). reflexivity.
Qed.

(** A report with the entries [details] recorded. *)
Lemma scan_rects_closed (page_num : nat) (page : Page) (rects : list Rect) :
  page_ok page = true ->
  forall report : ScanReport.t,
    let details :=
      map (image_detail page_num page)
          (filter (fun rect =>
                     is_suspicious_rect (width (page_rect page)) (height (page_rect page))
                       rect = true) rects) in
    scan_rects (width (page_rect page)) (height (page_rect page)) page_num rects report
    = Ok (ScanReport.mk
            (ScanReport.pages report) (ScanReport.images report)
            (ScanReport.has_text_watermark report)
            (ScanReport.has_qr_watermark report || nonempty details)
            (ScanReport.text_details report)
            (ScanReport.image_details report ++ details)).
Proof.
  intros Hok.
  pose proof (page_ok_width _ Hok) as Hw.
  pose proof (page_ok_height _ Hok) as Hh.
  induction rects as [| rect rects IH]; intros report; simpl.
  - destruct report. simpl. rewrite orb_false_r, app_nil_r. reflexivity.
  - rewrite (is_suspicious_rect_ok _ _ rect Hw Hh). simpl.
    destruct (is_suspicious_rect _ _ rect) eqn:E.
    + rewrite filter_cons_True by exact E.
      rewrite IH. simpl. rewrite orb_true_r, <- app_assoc. reflexivity.
    + rewrite filter_cons_False by (rewrite E; discriminate).
      apply IH.
Qed.

Lemma scan_images_closed (page_num : nat) (page : Page) (images : list Image) :
  page_ok page = true ->
  forall report : ScanReport.t,
    let details :=
      map (image_detail page_num page)
          (filter (fun rect =>
                     is_suspicious_rect (width (page_rect page)) (height (page_rect page))
                       rect = true)
                  (flat_map (fun img => get_image_rects page (xref img)) images)) in
    scan_images (width (page_rect page)) (height (page_rect page)) page_num page images
      report
    = Ok (ScanReport.mk
            (ScanReport.pages report) (ScanReport.images report)
            (ScanReport.has_text_watermark report)
            (ScanReport.has_qr_watermark report || nonempty details)
            (ScanReport.text_details report)
            (ScanReport.image_details report ++ details)).
Proof.
  intros Hok.
  induction images as [| img images IH]; intros report; simpl.
  - destruct report. simpl. rewrite orb_false_r, app_nil_r. reflexivity.
  - rewrite (scan_rects_closed page_num page _ Hok). simpl.
    rewrite IH. simpl.
    rewrite filter_app, map_app, nonempty_app, orb_assoc, app_assoc. reflexivity.
Qed.

Lemma scan_pages_closed (doc : list Page) :
  forallb page_ok doc = true ->
  forall (page_num : nat) (report : ScanReport.t),
    scan_pages page_num doc report = Ok (scanned page_num doc report).
Proof.
  induction doc as [| page doc IH]; intros Hok page_num report.
  - simpl. rewrite scanned_nil. reflexivity.
  - apply andb_true_iff in Hok as [Hpage Hdoc].
    cbn [scan_pages]. unfold scan_page.
    rewrite (scan_images_closed page_num page _ Hpage). simpl.
    rewrite (IH Hdoc). unfold scanned. simpl. fold (image_placements page).
    fold (suspicious page).
    destruct (has_watermark (page_text page));
      simpl; rewrite ?orb_true_r, ?orb_false_r, nonempty_app,
               <- ?orb_assoc, <- ?app_assoc, <- ?Nat.add_assoc; reflexivity.
Qed.

(** X18. What [scan_pdf] reports for a file with at least one page, and
    without changing anything: the number of pages; the number of images,
    summed over the pages; whether the text of some page matches a
    keyword; one entry per placement that passes its test, in page order
    and with page numbers from 1; whether there is such an entry; and the
    short text spans of the first page alone. *)
Theorem scan_pdf_report (input_path : string) (w : World) (f : File)
    (first_page : Page) (others : list Page) :
  fs w !! input_path = Some f ->
  file_pages f = first_page :: others ->
  forallb page_ok (file_pages f) = true ->
  scan_pdf input_path w =
    (Ok (ScanReport.mk
           (length (file_pages f))
           (list_sum (map (fun page => length (page_images page)) (file_pages f)))
           (existsb (fun page => has_watermark (page_text page)) (file_pages f))
           (nonempty (image_details_from 0 (file_pages f)))
           (short_spans (page_blocks first_page))
           (image_details_from 0 (file_pages f))),
     w).
Proof.
  intros Hfile Hpages Hok.
  unfold scan_pdf, bind, fitz_open, lift. rewrite Hfile.
  rewrite (scan_pages_closed _ Hok). rewrite Hpages. reflexivity.
Qed.

Lemma scan_pdf_report_witness :
  scan_pdf "b.pdf" Sample.world =
    (Ok (ScanReport.mk
           (length [Sample.stamp_page])
           (list_sum (map (fun page => length (page_images page)) [Sample.stamp_page]))
           (existsb (fun page => has_watermark (page_text page)) [Sample.stamp_page])
           (nonempty (image_details_from 0 [Sample.stamp_page]))
           (short_spans (page_blocks Sample.stamp_page))
           (image_details_from 0 [Sample.stamp_page])),
     Sample.world).
Proof.
  apply (scan_pdf_report "b.pdf" Sample.world (mkFile [Sample.stamp_page] 200000%N)
           Sample.stamp_page []).
  - reflexivity.
  - reflexivity.
  - reflexivity.
Defined.

(** ** What a clean scan means for the redactor *)

Lemma is_watermark_rect_suspicious (page_width page_height : Q) (rect : Rect) :
  is_watermark_rect page_width page_height rect = true ->
  is_suspicious_rect page_width page_height rect = true.
Proof.
  unfold is_watermark_rect, is_suspicious_rect.
  destruct (region_heuristic page_width page_height rect) as [[|] | e] eqn:E;
    [| discriminate ..].
  intros _. rewrite (region_heuristic_scan_heuristic _ _ _ E). reflexivity.
Qed.

Lemma classified_nil_of_suspicious (page : Page) :
  suspicious page = [] ->
  classified (width (page_rect page)) (height (page_rect page)) (image_placements page) = [].
Proof.
  unfold suspicious, classified.
  induction (image_placements page) as [| rect rects IH]; [reflexivity |].
  intros Hnil.
  destruct (is_suspicious_rect (width (page_rect page)) (height (page_rect page)) rect)
    eqn:E.
  - rewrite filter_cons_True in Hnil by exact E. discriminate Hnil.
  - rewrite filter_cons_False in Hnil by (rewrite E; discriminate).
    rewrite filter_cons_False; [exact (IH Hnil) |].
    intros Hhit. apply is_watermark_rect_suspicious in Hhit.
    rewrite E in Hhit. discriminate Hhit.
Qed.

Lemma nothing_detected (doc : list Page) :
  forall page_num : nat,
    existsb (fun page => has_watermark (page_text page)) doc = false ->
    nonempty (image_details_from page_num doc) = false ->
    forall remove_text remove_qr : bool,
      Forall (fun page => detected remove_text remove_qr page = []) doc.
Proof.
  induction doc as [| page doc IH]; intros page_num Htext Hqr remove_text remove_qr.
  - constructor.
  - simpl in Htext, Hqr. apply orb_false_iff in Htext as [Hpage Htext].
    rewrite nonempty_app in Hqr. apply orb_false_iff in Hqr as [Hsusp Hqr].
    constructor; [| exact (IH _ Htext Hqr _ _)].
    unfold detected. rewrite Hpage, andb_false_r.
    rewrite classified_nil_of_suspicious.
    + destruct remove_qr; reflexivity.
    + destruct (suspicious page); [reflexivity | discriminate Hsusp].
Qed.

(** X19. A scan without findings means that the redactor detects
    nothing: if [scan_pdf] reports neither a text watermark nor a QR
    watermark for a file, then [_remove_watermarks] on that file, with any
    flags, prints the count 0 and draws on every page the fixed zones of
    its flags and nothing else. *)
Theorem clean_scan_nothing_detected (env : Env) (input_path : string) (w : World)
    (f : File) (report : ScanReport.t) (remove_text remove_qr : bool) :
  fs w !! input_path = Some f ->
  clean_path input_path <> input_path ->
  file_ok f = true ->
  fst (scan_pdf input_path w) = Ok report ->
  ScanReport.has_text_watermark report = false ->
  ScanReport.has_qr_watermark report = false ->
  exists (w' : World) (f' : File),
    _remove_watermarks env input_path remove_text remove_qr w
      = (Ok (clean_path input_path), w')
    /\ stdout w' = stdout w ++ [MsgRemoved 0]
    /\ fs w' !! clean_path input_path = Some f'
    /\ Forall2
         (fun page page' =>
            page_drawn page' = page_drawn page ++ safety_net remove_text remove_qr page)
         (file_pages f) (file_pages f').
Proof.
  intros Hfile Hpath Hok Hscan Htext Hqr.
  assert (Hnone : Forall (fun page => detected remove_text remove_qr page = [])
                         (file_pages f)).
  { unfold scan_pdf, bind, fitz_open, lift in Hscan. rewrite Hfile in Hscan.
    rewrite (scan_pages_closed _ (file_ok_pages _ Hok)) in Hscan.
    destruct (file_pages f) as [| first_page others]; [discriminate Hscan |].
    simpl in Hscan. injection Hscan as <-. simpl in Htext, Hqr.
    exact (nothing_detected (first_page :: others) 0 Htext Hqr remove_text remove_qr). }
  eexists _, _.
  split; [apply (remove_watermarks_ok _ _ _ _ _ _ Hfile Hpath Hok) |].
  cbn [fs stdout]. split; [| split; [apply lookup_insert_eq |]].
  - do 3 f_equal. clear - Hnone.
    induction Hnone as [| page doc Hpage _ IH]; simpl; [reflexivity |].
    rewrite Hpage, IH. reflexivity.
  - unfold clean_file, redacted. cbn [file_pages].
    apply Forall2_fmap_r, Forall_Forall2_diag.
    eapply Forall_impl; [exact Hnone |].
    intros page Hpage. unfold redacted_page. simpl. rewrite Hpage. reflexivity.
Qed.

Lemma clean_scan_nothing_detected_witness :
  exists (w' : World) (f' : File),
    _remove_watermarks (Sample.env_with None) "c.pdf" true true Sample.world
      = (Ok (clean_path "c.pdf"), w')
    /\ stdout w' = stdout Sample.world ++ [MsgRemoved 0]
    /\ fs w' !! clean_path "c.pdf" = Some f'
    /\ Forall2
         (fun page page' =>
            page_drawn page' = page_drawn page ++ safety_net true true page)
         [Sample.blank_page; Sample.blank_page; Sample.blank_page] (file_pages f').
Proof.
  apply (clean_scan_nothing_detected (Sample.env_with None) "c.pdf" Sample.world
           (mkFile [Sample.blank_page; Sample.blank_page; Sample.blank_page] 300000%N)
           (ScanReport.mk 3 0 false false [] []) true true).
  - reflexivity.
  - vm_compute. discriminate.
  - reflexivity.
  - vm_compute. reflexivity.
  - reflexivity.
  - reflexivity.
Defined.

(** ** The text samples of a scan *)

Lemma lstrip_head (s : PyStr.t) (c : N) (r : PyStr.t) :
  PyStr.lstrip s = c :: r -> PyStr.isspace_cp c = false.
Proof.
  induction s as [| a s IH]; simpl; [discriminate |].
  destruct (PyStr.isspace_cp a) eqn:E; [exact IH |].
  intros [= <- _]. exact E.
Qed.

Lemma lstrip_fixed (s : PyStr.t) :
  (forall c r, s = c :: r -> PyStr.isspace_cp c = false) -> PyStr.lstrip s = s.
Proof.
  destruct s as [| a s]; [reflexivity |]. intros H. simpl.
  rewrite (H a s eq_refl). reflexivity.
Qed.

Lemma lstrip_suffix (s : PyStr.t) : exists pre, s = pre ++ PyStr.lstrip s.
Proof.
  induction s as [| a s [pre IH]]; simpl.
  - exists []. reflexivity.
  - destruct (PyStr.isspace_cp a).
    + exists (a :: pre). simpl. rewrite <- IH. reflexivity.
    + exists []. reflexivity.
Qed.

Lemma lstrip_lstrip (s : PyStr.t) : PyStr.lstrip (PyStr.lstrip s) = PyStr.lstrip s.
Proof. apply lstrip_fixed. intros c r H. exact (lstrip_head _ _ _ H). Qed.

(** [strip] leaves nothing to strip. *)
Lemma strip_strip (s : PyStr.t) : PyStr.strip (PyStr.strip s) = PyStr.strip s.
Proof.
  unfold PyStr.strip.
  set (a := PyStr.lstrip s). set (b := PyStr.lstrip (rev a)).
  assert (Hhead : PyStr.lstrip (rev b) = rev b).
  { apply lstrip_fixed. intros c r Hc.
    destruct (lstrip_suffix (rev a)) as [pre Hpre]. fold b in Hpre.
    apply (f_equal (@rev N)) in Hpre. rewrite rev_involutive, rev_app_distr, Hc in Hpre.
    apply (lstrip_head s c (r ++ rev pre)). exact Hpre. }
  rewrite Hhead, rev_involutive. unfold b. rewrite lstrip_lstrip. reflexivity.
Qed.

Lemma short_spans_bounds (blocks : list Block) (d : ScanReport.TextDetail) :
  d ∈ short_spans blocks ->
  (2 <= length (ScanReport.text d) <= 29)%nat
  /\ PyStr.strip (ScanReport.text d) = ScanReport.text d.
Proof.
  unfold short_spans. rewrite !list_elem_of_In, in_flat_map.
  intros (block & _ & Hd).
  destruct (block_type block =? 0)%Z; [| destruct Hd].
  apply in_flat_map in Hd as (line & _ & Hd).
  apply in_flat_map in Hd as (span & _ & Hd).
  destruct ((length (PyStr.strip (span_text span)) <? 30)%nat
            && (1 <? length (PyStr.strip (span_text span)))%nat) eqn:E;
    [| destruct Hd].
  destruct Hd as [<- | []]. simpl.
  apply andb_true_iff in E as [Hhi Hlo].
  apply Nat.ltb_lt in Hhi, Hlo. split; [lia | apply strip_strip].
Qed.

(** X20. Every text sample that [scan_pdf] returns is trimmed (stripping
    it again changes nothing) and has between 2 and 29 characters. *)
Theorem scan_pdf_text_samples (input_path : string) (w : World) (f : File)
    (report : ScanReport.t) :
  fs w !! input_path = Some f ->
  forallb page_ok (file_pages f) = true ->
  fst (scan_pdf input_path w) = Ok report ->
  Forall (fun d => (2 <= length (ScanReport.text d) <= 29)%nat
                   /\ PyStr.strip (ScanReport.text d) = ScanReport.text d)
         (ScanReport.text_details report).
Proof.
  intros Hfile Hok Hscan.
  unfold scan_pdf, bind, fitz_open, lift in Hscan. rewrite Hfile in Hscan.
  rewrite (scan_pages_closed _ Hok) in Hscan.
  destruct (file_pages f) as [| first_page others]; [discriminate Hscan |].
  simpl in Hscan. injection Hscan as <-. simpl.
  apply Forall_forall. intros d Hd. exact (short_spans_bounds _ _ Hd).
Qed.

Lemma scan_pdf_text_samples_witness :
  Forall (fun d => (2 <= length (ScanReport.text d) <= 29)%nat
                   /\ PyStr.strip (ScanReport.text d) = ScanReport.text d)
         (ScanReport.text_details
            (ScanReport.mk 2 0 false false
               [ScanReport.mkText (PyStr.lit "Invoice 42") 18] [])).
Proof.
  apply (scan_pdf_text_samples "titled.pdf" More.world
           (mkFile [More.titled_page; Sample.blank_page] 9000%N)).
  - reflexivity.
  - reflexivity.
  - vm_compute. reflexivity.
Defined.
